(** * Apartment registry and approval workflow of [bot.py]

    A shallow embedding of the registry core of the bot: the three SQLite
    tables ([apartments], [admins], [approval_requests]), the SQL statements
    the handlers execute on them, and the command handlers themselves, each
    as a function from the database before the call to the database after
    it and the reply the handler chose.

    Modelling conventions.
    - Python integers are [Z].  An SQLite INTEGER holds 64 bits: binding a
      number outside that range to a statement raises OverflowError
      ([sqlite_integer]).  The numbers a user types as arguments are checked
      where they are first bound; the id of the sender of an update is
      Telegram's and the main administrator's is configuration, and both are
      taken to be within the range.
    - [apartments] and [approval_requests] are the lists of their rows in
      rowid order; [admins], whose key is the user id, is read by key
      only, and its rows are kept as they were added.  The SELECTs on
      [apartments] have no ORDER BY; SQLite answers them from the index of
      UNIQUE(apartment_number, user_id), which holds every column they
      need, so their rows come in the order of that index
      ([Sql.index_scan]): by apartment, then by user.  The SELECTs on
      [approval_requests], which has no index, come in rowid order.
      [fetchone] is the head of the answer.
    - The timestamp columns are informational and are left out.
    - [context.args] is the list of the words of the message after the
      command.  [isdigit] and [int] are Python's on words of ASCII
      ([ascii_word]); digits of other scripts are outside the model.
    - Every handler commits its writes before it talks to Telegram, so the
      database after a call does not depend on the transport.  The reply
      recorded is the one sent when the transport calls succeed. *)

From Stdlib Require Import ZArith List String Ascii Bool Lia DecimalString DecimalPos Sorted.
Import ListNotations.
Open Scope string_scope.
Open Scope list_scope.
Open Scope Z_scope.

(* ------------------------------------------------------------------ *)
(** ** Constants *)

Definition FORCE_REGISTRATION_CODE : string := "2512".

Definition HOUSE1_START : Z := 1.
Definition HOUSE1_END : Z := 252.
Definition HOUSE2_START : Z := 253.
Definition HOUSE2_END : Z := 403.

Definition is_valid_apartment (apartment_number : Z) : bool :=
  ((HOUSE1_START <=? apartment_number) && (apartment_number <=? HOUSE1_END))
  || ((HOUSE2_START <=? apartment_number) && (apartment_number <=? HOUSE2_END)).

(* ------------------------------------------------------------------ *)
(** ** Command arguments: [str.isdigit] and [int] *)

Definition is_ascii_digit (c : ascii) : bool :=
  let n := nat_of_ascii c in (48 <=? n)%nat && (n <=? 57)%nat.

Definition digit_value (c : ascii) : Z := Z.of_nat (nat_of_ascii c) - 48.

Fixpoint all_digits (s : string) : bool :=
  match s with
  | EmptyString => true
  | String c rest => is_ascii_digit c && all_digits rest
  end.

(** [s.isdigit()]: at least one character, and digits only. *)
Definition isdigit (s : string) : bool :=
  match s with
  | EmptyString => false
  | String _ _ => all_digits s
  end.

(** The digits of a decimal literal, most significant first; a single
    underscore may stand between two digits.  [after_digit] says whether
    the character before was a digit. *)
Fixpoint int_digits (acc : Z) (after_digit : bool) (s : string) : option Z :=
  match s with
  | EmptyString => if after_digit then Some acc else None
  | String c rest =>
      if is_ascii_digit c then int_digits (10 * acc + digit_value c) true rest
      else if Ascii.eqb c "_"%char && after_digit then int_digits acc false rest
      else None
  end.

(** [int(s)]: an optional sign, then a decimal literal; [None] is
    ValueError. *)
Definition int (s : string) : option Z :=
  match s with
  | String "-"%char rest => option_map Z.opp (int_digits 0 false rest)
  | String "+"%char rest => int_digits 0 false rest
  | _ => int_digits 0 false s
  end.

(** A word of ASCII: every character is printable and none is a blank,
    as in an argument cut out of the text of a message at white space. *)
Fixpoint ascii_word (s : string) : bool :=
  match s with
  | EmptyString => true
  | String c rest =>
      (32 <? nat_of_ascii c)%nat && (nat_of_ascii c <? 127)%nat
      && ascii_word rest
  end.

(** What sqlite3 binds to a statement without OverflowError: a Python
    integer of 64 bits, sign included. *)
Definition sqlite_integer (n : Z) : bool :=
  (- 2 ^ 63 <=? n) && (n <? 2 ^ 63).

(** [str(n)]: the decimal writing of an integer, as a user types it. *)
Definition str (n : Z) : string := NilZero.string_of_int (Z.to_int n).

(* ------------------------------------------------------------------ *)
(** ** Tables *)

Inductive status_text := pending | approved | rejected.

Definition status_eqb (a b : status_text) : bool :=
  match a, b with
  | pending, pending | approved, approved | rejected, rejected => true
  | _, _ => false
  end.

Module Apartments.
Record row := mk { id : Z; apartment_number : Z; user_id : Z }.
End Apartments.

Module Admins.
Record row := mk { user_id : Z; added_by : option Z }.
End Admins.

Module Requests.
Record row := mk {
  id : Z;
  apartment_number : Z;
  requesting_user_id : Z;
  approver_user_id : Z;
  status : status_text
}.
End Requests.

(** The database file.  The two [_seq] fields are the AUTOINCREMENT
    counters of [sqlite_sequence]: the largest id ever handed out. *)
Record db := mkdb {
  apartments : list Apartments.row;
  admins : list Admins.row;
  approval_requests : list Requests.row;
  apartments_seq : Z;
  approval_requests_seq : Z
}.

(** A database file in which no table has been created yet. *)
Definition empty_db : db := mkdb [] [] [] 0 0.

Definition set_apartments (rows : list Apartments.row) (d : db) : db :=
  mkdb rows (admins d) (approval_requests d)
       (apartments_seq d) (approval_requests_seq d).

Definition set_admins (rows : list Admins.row) (d : db) : db :=
  mkdb (apartments d) rows (approval_requests d)
       (apartments_seq d) (approval_requests_seq d).

Definition set_approval_requests (rows : list Requests.row) (d : db) : db :=
  mkdb (apartments d) (admins d) rows
       (apartments_seq d) (approval_requests_seq d).

(* ------------------------------------------------------------------ *)
(** ** The SQL statements of the handlers *)

Module Sql.

(** WHERE clauses. *)
Definition in_apartment (n : Z) (r : Apartments.row) : bool :=
  Apartments.apartment_number r =? n.

Definition of_user (u : Z) (r : Apartments.row) : bool :=
  Apartments.user_id r =? u.

Definition is_pending (q : Requests.row) : bool :=
  status_eqb (Requests.status q) pending.

(** [requesting_user_id = ? AND approver_user_id = ?] *)
Definition between (requester approver : Z) (q : Requests.row) : bool :=
  (Requests.requesting_user_id q =? requester)
  && (Requests.approver_user_id q =? approver).

(** [apartment_number = ? AND requesting_user_id = ?] *)
Definition claim_of (n requester : Z) (q : Requests.row) : bool :=
  (Requests.apartment_number q =? n)
  && (Requests.requesting_user_id q =? requester).

(** The order of the index of UNIQUE(apartment_number, user_id). *)
Definition index_le (r1 r2 : Apartments.row) : bool :=
  (Apartments.apartment_number r1 <? Apartments.apartment_number r2)
  || ((Apartments.apartment_number r1 =? Apartments.apartment_number r2)
      && (Apartments.user_id r1 <=? Apartments.user_id r2)).

(** A row put at its place in the index: before the first entry that is
    not smaller. *)
Fixpoint index_insert (r : Apartments.row) (l : list Apartments.row)
  : list Apartments.row :=
  match l with
  | [] => [r]
  | x :: rest => if index_le r x then r :: l else x :: index_insert r rest
  end.

(** The rows of [apartments] as a scan of the index gives them; rows with
    the same apartment and user, which the constraint excludes, stay in
    rowid order. *)
Definition index_scan (rows : list Apartments.row) : list Apartments.row :=
  fold_right index_insert [] rows.

(** SELECT 1 FROM admins WHERE user_id = ? *)
Definition select_admin (u : Z) (d : db) : list Z :=
  map Admins.user_id (filter (fun a => Admins.user_id a =? u) (admins d)).

(** SELECT user_id FROM apartments WHERE apartment_number = ? *)
Definition select_residents (n : Z) (d : db) : list Z :=
  map Apartments.user_id (filter (in_apartment n) (index_scan (apartments d))).

(** SELECT apartment_number FROM apartments WHERE user_id = ? *)
Definition select_apartments_of (u : Z) (d : db) : list Z :=
  map Apartments.apartment_number
      (filter (of_user u) (index_scan (apartments d))).

(** SELECT apartment_number FROM apartments
    WHERE user_id = ? AND apartment_number = ? *)
Definition select_link (u n : Z) (d : db) : list Z :=
  map Apartments.apartment_number
      (filter (fun r => of_user u r && in_apartment n r)
              (index_scan (apartments d))).

(** The id an AUTOINCREMENT column gives to a new row: one more than the
    largest id the table has ever had. *)
Definition next_id (seq : Z) (ids : list Z) : Z := fold_right Z.max seq ids + 1.

Definition next_apartment_id (d : db) : Z :=
  next_id (apartments_seq d) (map Apartments.id (apartments d)).

Definition next_request_id (d : db) : Z :=
  next_id (approval_requests_seq d) (map Requests.id (approval_requests d)).

(** INSERT INTO apartments (apartment_number, user_id) VALUES (?, ?);
    [None] is the IntegrityError of UNIQUE(apartment_number, user_id). *)
Definition insert_apartment (n u : Z) (d : db) : option db :=
  if existsb (fun r => in_apartment n r && of_user u r) (apartments d)
  then None
  else
    let new_id := next_apartment_id d in
    Some (mkdb (apartments d ++ [Apartments.mk new_id n u])
               (admins d) (approval_requests d)
               new_id (approval_requests_seq d)).

(** DELETE FROM apartments WHERE apartment_number = ? *)
Definition delete_apartment_number (n : Z) (d : db) : db :=
  set_apartments (filter (fun r => negb (in_apartment n r)) (apartments d)) d.

(** DELETE FROM apartments WHERE user_id = ? *)
Definition delete_user_links (u : Z) (d : db) : db :=
  set_apartments (filter (fun r => negb (of_user u r)) (apartments d)) d.

(** DELETE FROM apartments WHERE user_id = ? AND apartment_number = ? *)
Definition delete_link (u n : Z) (d : db) : db :=
  set_apartments
    (filter (fun r => negb (of_user u r && in_apartment n r)) (apartments d)) d.

(** DELETE FROM apartments *)
Definition delete_all_apartments (d : db) : db := set_apartments [] d.

(** DELETE FROM approval_requests *)
Definition delete_all_requests (d : db) : db := set_approval_requests [] d.

(** INSERT INTO approval_requests
      (apartment_number, requesting_user_id, approver_user_id)
    VALUES (?, ?, ?); the status column takes its default, 'pending'. *)
Definition insert_request (n requester approver : Z) (d : db) : db :=
  let new_id := next_request_id d in
  mkdb (apartments d) (admins d)
       (approval_requests d ++ [Requests.mk new_id n requester approver pending])
       (apartments_seq d) new_id.

(** SELECT apartment_number FROM approval_requests
    WHERE requesting_user_id = ? AND approver_user_id = ?
      AND status = 'pending' *)
Definition select_pending (requester approver : Z) (d : db) : list Z :=
  map Requests.apartment_number
      (filter (fun q => between requester approver q && is_pending q)
              (approval_requests d)).

Definition set_status (s : status_text) (q : Requests.row) : Requests.row :=
  Requests.mk (Requests.id q) (Requests.apartment_number q)
              (Requests.requesting_user_id q) (Requests.approver_user_id q) s.

(** UPDATE approval_requests SET status = 'approved'
    WHERE requesting_user_id = ? AND approver_user_id = ?
      AND status = 'pending' *)
Definition update_approved (requester approver : Z) (d : db) : db :=
  set_approval_requests
    (map (fun q => if between requester approver q && is_pending q
                   then set_status approved q else q)
         (approval_requests d)) d.

(** UPDATE approval_requests SET status = 'rejected'
    WHERE requesting_user_id = ? AND approver_user_id = ? *)
Definition update_rejected (requester approver : Z) (d : db) : db :=
  set_approval_requests
    (map (fun q => if between requester approver q
                   then set_status rejected q else q)
         (approval_requests d)) d.

(** UPDATE approval_requests SET status = 'approved', approver_user_id = ?
    WHERE apartment_number = ? AND requesting_user_id = ?
      AND status = 'pending' *)
Definition update_assigned (actor n requester : Z) (d : db) : db :=
  set_approval_requests
    (map (fun q => if claim_of n requester q && is_pending q
                   then Requests.mk (Requests.id q) (Requests.apartment_number q)
                                    (Requests.requesting_user_id q) actor approved
                   else q)
         (approval_requests d)) d.

(** DELETE FROM approval_requests WHERE status = 'pending', with the
    statement's rowcount. *)
Definition delete_pending (d : db) : db * Z :=
  (set_approval_requests
     (filter (fun q => negb (is_pending q)) (approval_requests d)) d,
   Z.of_nat (List.length (filter is_pending (approval_requests d)))).

(** INSERT OR IGNORE INTO admins (user_id, added_by) VALUES (?, ?); the
    row is ignored when the primary key is taken. *)
Definition insert_or_ignore_admin (u : Z) (by_whom : option Z) (d : db) : db :=
  if existsb (fun a => Admins.user_id a =? u) (admins d)
  then d
  else set_admins (admins d ++ [Admins.mk u by_whom]) d.

(** DELETE FROM admins WHERE user_id = ? AND user_id != ? *)
Definition delete_admin (u keep : Z) (d : db) : db :=
  set_admins
    (filter (fun a => negb ((Admins.user_id a =? u)
                            && negb (Admins.user_id a =? keep)))
            (admins d)) d.

End Sql.

(** [cursor.fetchone()] *)
Definition fetchone {A : Type} (rows : list A) : option A := hd_error rows.

(* ------------------------------------------------------------------ *)
(** ** Replies *)

Inductive exn := ValueError | IntegrityError | OverflowError.

(** What a handler answers; one constructor per message of the source, with
    the values the message interpolates. *)
Inductive outcome :=
| NoReply
| Raised (e : exn)                      (* the handler ends by an uncaught exception *)
| AskApartmentNumber                    (* setapartment: no usable argument *)
| WrongApartmentNumber                  (* the number is in neither house *)
| AccessRequested (requester approver apartment : Z)
| Linked (user apartment : Z)
| AskUserId
| RequestNotFound                       (* not found or already handled *)
| AlreadyRegistered (apartment : Z)     (* approve: remove the old link first *)
| AlreadyLinkedHere                     (* approve: IntegrityError on insert *)
| AccessGranted (user apartment : Z)
| ProcessingError                       (* approve: the outer except *)
| RequestRejected (user apartment : Z)
| MainAdminOnly
| AskSecretCode
| DatabaseCleared
| LinkDeleted (user apartment : Z)
| NoLinkedApartment
| AdminsOnly
| UnlinkUsage
| FirstArgMustBeUserId
| ApartmentMustBeNumber
| LinksNotFound
| LinksRemoved (user : Z) (removed : list Z)
| AdminDeleteUsage
| AlreadyFree (apartment : Z)
| ApartmentFreed (apartment : Z) (residents : list Z)
| NothingToClear
| RequestsCleared (deleted : Z)
| AssignUsage
| UserIdMustBeNumber
| Assigned (apartment user : Z) (previous_residents previous_apartments : list Z)
| AdminAdded (user : Z)
| CannotRemoveMainAdmin
| AdminRemoved (user : Z).

(** The error kinds the specification speaks of.  The source has replies
    only; [error_of] files each refusal under the kind the specification
    gives to its cause. *)
Inductive error_kind :=
  ValidationError | PermissionError | NotFoundError | ConflictError.

Definition error_of (o : outcome) : option error_kind :=
  match o with
  | AskApartmentNumber | WrongApartmentNumber | AskUserId | AskSecretCode
  | UnlinkUsage | FirstArgMustBeUserId | ApartmentMustBeNumber
  | AdminDeleteUsage | AssignUsage | UserIdMustBeNumber => Some ValidationError
  | MainAdminOnly | AdminsOnly | CannotRemoveMainAdmin => Some PermissionError
  | RequestNotFound | NoLinkedApartment | LinksNotFound
  | AlreadyFree _ => Some NotFoundError
  | AlreadyRegistered _ | AlreadyLinkedHere => Some ConflictError
  | _ => None
  end.

(* ------------------------------------------------------------------ *)
(** ** Handlers *)

(** [is_admin_user] *)
Definition is_admin_user (d : db) (user_id : Z) : bool :=
  match fetchone (Sql.select_admin user_id d) with
  | Some _ => true
  | None => false
  end.

(** [clear_pending_requests_from_db] *)
Definition clear_pending_requests_from_db (d : db) : db * Z :=
  Sql.delete_pending d.

Section Bot.

(** The main administrator, read from the environment at start-up. *)
Variable MAIN_ADMIN_ID : Z.

(** [create_db]: the tables are created when missing and the main
    administrator is seeded. *)
Definition create_db (d : db) : db :=
  Sql.insert_or_ignore_admin MAIN_ADMIN_ID None d.

(** [request_apartment_access], the handler of /setapartment. *)
Definition request_apartment_access
    (d : db) (requesting_user_id : Z) (args : list string) : db * outcome :=
  match args with
  | [a] =>
      if negb (isdigit a) then (d, AskApartmentNumber) else
      match int a with
      | None => (d, Raised ValueError)
      | Some apartment_number =>
          if negb (is_valid_apartment apartment_number)
          then (d, WrongApartmentNumber)
          else
            match Sql.select_residents apartment_number d with
            | existing_user_id :: _ =>
                (Sql.insert_request apartment_number requesting_user_id
                                    existing_user_id d,
                 AccessRequested requesting_user_id existing_user_id
                                 apartment_number)
            | [] =>
                match Sql.insert_apartment apartment_number
                                           requesting_user_id d with
                | Some d' => (d', Linked requesting_user_id apartment_number)
                | None => (d, Raised IntegrityError)
                end
            end
      end
  | _ => (d, AskApartmentNumber)
  end.

(** [approve_request], the handler of /approve. *)
Definition approve_request
    (d : db) (approver_id : Z) (args : list string) : db * outcome :=
  match args with
  | [] => (d, AskUserId)
  | a :: _ =>
      match int a with
      | None => (d, ProcessingError)
      | Some requesting_user_id =>
          (* the OverflowError of the first SELECT goes to the outer except *)
          if negb (sqlite_integer requesting_user_id) then (d, ProcessingError) else
          match fetchone (Sql.select_pending requesting_user_id approver_id d) with
          | None => (d, RequestNotFound)
          | Some apartment_number =>
              match fetchone (Sql.select_apartments_of requesting_user_id d) with
              | Some existing_apartment =>
                  (d, AlreadyRegistered existing_apartment)
              | None =>
                  match Sql.insert_apartment apartment_number
                                             requesting_user_id d with
                  | None => (d, AlreadyLinkedHere)
                  | Some d' =>
                      (Sql.update_approved requesting_user_id approver_id d',
                       AccessGranted requesting_user_id apartment_number)
                  end
              end
          end
      end
  end.

(** [reject_request], the handler of /reject. *)
Definition reject_request
    (d : db) (approver_id : Z) (args : list string) : db * outcome :=
  match args with
  | [] => (d, AskUserId)
  | a :: _ =>
      match int a with
      | None => (d, Raised ValueError)
      | Some requesting_user_id =>
          if negb (sqlite_integer requesting_user_id)
          then (d, Raised OverflowError) else
          match fetchone (Sql.select_pending requesting_user_id approver_id d) with
          | Some apartment_number =>
              (Sql.update_rejected requesting_user_id approver_id d,
               RequestRejected requesting_user_id apartment_number)
          | None => (d, RequestNotFound)
          end
      end
  end.

(** [force_registration], the handler of /forceregistration. *)
Definition force_registration
    (d : db) (user_id : Z) (args : list string) : db * outcome :=
  if negb (user_id =? MAIN_ADMIN_ID) then (d, MainAdminOnly) else
  match args with
  | [] => (d, AskSecretCode)
  | a :: _ =>
      if negb (String.eqb a FORCE_REGISTRATION_CODE) then (d, AskSecretCode)
      else (Sql.delete_all_requests (Sql.delete_all_apartments d),
            DatabaseCleared)
  end.

(** [delete_apartment], the handler of /deleteapartment. *)
Definition delete_apartment (d : db) (user_id : Z) : db * outcome :=
  match fetchone (Sql.select_apartments_of user_id d) with
  | Some apartment =>
      (Sql.delete_user_links user_id d, LinkDeleted user_id apartment)
  | None => (d, NoLinkedApartment)
  end.

(** [admin_unlink], the handler of /adminunlink. *)
Definition admin_unlink
    (d : db) (actor_id : Z) (args : list string) : db * outcome :=
  if negb (is_admin_user d actor_id) then (d, AdminsOnly) else
  match args with
  | [] => (d, UnlinkUsage)
  | a0 :: more =>
      match int a0 with
      | None => (d, FirstArgMustBeUserId)
      | Some target_user_id =>
          match more with
          | a1 :: _ =>
              if negb (isdigit a1) then (d, ApartmentMustBeNumber) else
              match int a1 with
              | None => (d, Raised ValueError)
              | Some apartment_number =>
                  if negb (sqlite_integer target_user_id
                           && sqlite_integer apartment_number)
                  then (d, Raised OverflowError) else
                  match Sql.select_link target_user_id apartment_number d with
                  | [] => (d, LinksNotFound)
                  | apartments =>
                      (Sql.delete_link target_user_id apartment_number d,
                       LinksRemoved target_user_id apartments)
                  end
              end
          | [] =>
              if negb (sqlite_integer target_user_id)
              then (d, Raised OverflowError) else
              match Sql.select_apartments_of target_user_id d with
              | [] => (d, LinksNotFound)
              | apartments =>
                  (Sql.delete_user_links target_user_id d,
                   LinksRemoved target_user_id apartments)
              end
          end
      end
  end.

(** [admin_delete_apartment], the handler of /admindelete. *)
Definition admin_delete_apartment
    (d : db) (actor_id : Z) (args : list string) : db * outcome :=
  if negb (is_admin_user d actor_id) then (d, AdminsOnly) else
  match args with
  | [] => (d, AdminDeleteUsage)
  | a :: _ =>
      if negb (isdigit a) then (d, AdminDeleteUsage) else
      match int a with
      | None => (d, Raised ValueError)
      | Some apartment_number =>
          if negb (is_valid_apartment apartment_number)
          then (d, WrongApartmentNumber)
          else
            match Sql.select_residents apartment_number d with
            | [] => (d, AlreadyFree apartment_number)
            | residents =>
                (Sql.delete_apartment_number apartment_number d,
                 ApartmentFreed apartment_number residents)
            end
      end
  end.

(** The reply both clearing entry points give for a rowcount. *)
Definition cleared_reply (deleted : Z) : outcome :=
  if deleted =? 0 then NothingToClear else RequestsCleared deleted.

(** [clear_approval_requests], the handler of /clearrequests. *)
Definition clear_approval_requests (d : db) (actor_id : Z) : db * outcome :=
  if negb (is_admin_user d actor_id) then (d, AdminsOnly) else
  let '(d', deleted) := clear_pending_requests_from_db d in
  (d', cleared_reply deleted).

(** [handle_admin_callback], the handler of the inline admin buttons. *)
Definition handle_admin_callback
    (d : db) (actor_id : Z) (data : string) : db * outcome :=
  if String.eqb data "" then (d, NoReply) else
  if String.eqb data "admin_clear_requests" then
    if negb (is_admin_user d actor_id) then (d, AdminsOnly) else
    let '(d', deleted) := clear_pending_requests_from_db d in
    (d', cleared_reply deleted)
  else (d, NoReply).

(** [admin_assign], the handler of /adminassign. *)
Definition admin_assign
    (d : db) (actor_id : Z) (args : list string) : db * outcome :=
  if negb (is_admin_user d actor_id) then (d, AdminsOnly) else
  match args with
  | a0 :: a1 :: _ =>
      match int a0 with
      | None => (d, ApartmentMustBeNumber)
      | Some apartment_number =>
          match int a1 with
          | None => (d, UserIdMustBeNumber)
          | Some target_user_id =>
              if negb (is_valid_apartment apartment_number)
              then (d, WrongApartmentNumber)
              else if negb (sqlite_integer target_user_id)
              then (d, Raised OverflowError)
              else
                let previous_residents :=
                  Sql.select_residents apartment_number d in
                let previous_apartments :=
                  Sql.select_apartments_of target_user_id d in
                let d1 := Sql.delete_apartment_number apartment_number d in
                let d2 := Sql.delete_user_links target_user_id d1 in
                match Sql.insert_apartment apartment_number
                                           target_user_id d2 with
                | None => (d, Raised IntegrityError)
                | Some d3 =>
                    (Sql.update_assigned actor_id apartment_number
                                         target_user_id d3,
                     Assigned apartment_number target_user_id
                              previous_residents previous_apartments)
                end
          end
      end
  | _ => (d, AssignUsage)
  end.

(** [add_admin], the handler of /addadmin. *)
Definition add_admin
    (d : db) (user_id : Z) (args : list string) : db * outcome :=
  if negb (user_id =? MAIN_ADMIN_ID) then (d, MainAdminOnly) else
  match args with
  | [] => (d, AskUserId)
  | a :: _ =>
      if negb (isdigit a) then (d, AskUserId) else
      match int a with
      | None => (d, Raised ValueError)
      | Some new_admin_id =>
          if negb (sqlite_integer new_admin_id) then (d, Raised OverflowError)
          else
            (Sql.insert_or_ignore_admin new_admin_id (Some MAIN_ADMIN_ID) d,
             AdminAdded new_admin_id)
      end
  end.

(** [remove_admin], the handler of /removeadmin. *)
Definition remove_admin
    (d : db) (user_id : Z) (args : list string) : db * outcome :=
  if negb (user_id =? MAIN_ADMIN_ID) then (d, MainAdminOnly) else
  match args with
  | [] => (d, AskUserId)
  | a :: _ =>
      if negb (isdigit a) then (d, AskUserId) else
      match int a with
      | None => (d, Raised ValueError)
      | Some admin_id =>
          if admin_id =? MAIN_ADMIN_ID then (d, CannotRemoveMainAdmin)
          else if negb (sqlite_integer admin_id) then (d, Raised OverflowError)
          else (Sql.delete_admin admin_id MAIN_ADMIN_ID d, AdminRemoved admin_id)
      end
  end.

End Bot.

(* ------------------------------------------------------------------ *)
(** ** Commands and runs *)

(** The updates the application dispatches, by the name of the command. *)
Inductive command :=
| setapartment (user : Z) (args : list string)
| approve (user : Z) (args : list string)
| reject (user : Z) (args : list string)
| forceregistration (user : Z) (args : list string)
| deleteapartment (user : Z)
| adminunlink (user : Z) (args : list string)
| admindelete (user : Z) (args : list string)
| clearrequests (user : Z)
| adminassign (user : Z) (args : list string)
| addadmin (user : Z) (args : list string)
| removeadmin (user : Z) (args : list string)
| admin_button (user : Z) (data : string)
| restart          (* the process starts again: [main] calls [create_db] *)
| read_only.       (* /start, /help, /viewapartments, /listadmins, /adminhelp,
                      /apartmentstats, /checkall, plain messages: SELECT only *)

Definition dispatch (MAIN_ADMIN_ID : Z) (d : db) (c : command) : db * outcome :=
  match c with
  | setapartment u args => request_apartment_access d u args
  | approve u args => approve_request d u args
  | reject u args => reject_request d u args
  | forceregistration u args => force_registration MAIN_ADMIN_ID d u args
  | deleteapartment u => delete_apartment d u
  | adminunlink u args => admin_unlink d u args
  | admindelete u args => admin_delete_apartment d u args
  | clearrequests u => clear_approval_requests d u
  | adminassign u args => admin_assign d u args
  | addadmin u args => add_admin MAIN_ADMIN_ID d u args
  | removeadmin u args => remove_admin MAIN_ADMIN_ID d u args
  | admin_button u data => handle_admin_callback d u data
  | restart => (create_db MAIN_ADMIN_ID d, NoReply)
  | read_only => (d, NoReply)
  end.

(** The database after a list of updates, handled one after the other. *)
Definition run (MAIN_ADMIN_ID : Z) (d : db) (cs : list command) : db :=
  fold_left (fun d c => fst (dispatch MAIN_ADMIN_ID d c)) cs d.

(* ------------------------------------------------------------------ *)
(** ** Vocabulary of the statements *)

(** The user holds some occupancy link. *)
Definition holds_link (u : Z) (d : db) : Prop :=
  exists l, In l (apartments d) /\ Apartments.user_id l = u.

(** The unit has some occupancy link. *)
Definition occupied (n : Z) (d : db) : Prop :=
  exists l, In l (apartments d) /\ Apartments.apartment_number l = n.

(** Some request of the requester, bound to the approver, is pending. *)
Definition has_pending (requester approver : Z) (d : db) : Prop :=
  exists q, In q (approval_requests d)
            /\ Requests.requesting_user_id q = requester
            /\ Requests.approver_user_id q = approver
            /\ Requests.status q = pending.


(** The status of the request with a given id, when the row exists. *)
Definition status_of (id : Z) (d : db) : option status_text :=
  option_map Requests.status
             (find (fun q => Requests.id q =? id) (approval_requests d)).

(** From the first database to the second, every request that is approved
    or rejected keeps its status. *)
Definition status_kept (d d' : db) : Prop :=
  forall id s,
    status_of id d = Some s -> s <> pending -> status_of id d' = Some s.

(** The links of a unit, and of a user. *)
Definition links_of_unit (n : Z) (d : db) : list Apartments.row :=
  filter (Sql.in_apartment n) (apartments d).

Definition links_of_user (u : Z) (d : db) : list Apartments.row :=
  filter (Sql.of_user u) (apartments d).

(** The links that are neither of the unit nor of the user: what the two
    deletes of [admin_assign] leave. *)
Definition unrelated_links (n u : Z) (d : db) : list Apartments.row :=
  filter (fun r => negb (Sql.of_user u r))
         (filter (fun r => negb (Sql.in_apartment n r)) (apartments d)).

(* ------------------------------------------------------------------ *)
(** ** Sample runs

    Small registries reached through the handlers, with main administrator
    1000; the statements below are tried on them. *)

(** User 1 lives in apartment 10. *)
Definition db_one_resident : db :=
  run 1000 empty_db [restart; setapartment 1 ["10"]].

(** User 2 has asked for apartment 10 as well; user 1 is to decide. *)
Definition db_pending : db :=
  run 1000 db_one_resident [setapartment 2 ["10"]].

(** User 1 has let user 2 in: apartment 10 has two residents. *)
Definition db_two_residents : db :=
  run 1000 db_pending [approve 1 ["2"]].

(** User 2 has left apartment 10 and asks for it again: the approved
    request 1 and the pending request 2 name the same two users. *)
Definition db_second_request : db :=
  run 1000 db_two_residents [deleteapartment 2; setapartment 2 ["10"]].


(** User 3 lives in apartments 30 and 31, and has asked for apartment 10;
    user 7 is an administrator. *)
Definition db_crowded : db :=
  run 1000 db_two_residents
      [setapartment 3 ["30"]; setapartment 3 ["31"]; setapartment 3 ["10"];
       addadmin 1000 ["7"]].

(** Users 5 and 2 live in apartment 10; user 5 came first, and the index
    has user 2 first. *)
Definition db_later_neighbour : db :=
  run 1000 empty_db
      [restart; setapartment 5 ["10"]; setapartment 2 ["10"]; approve 5 ["2"];
       addadmin 1000 ["7"]].


(** User 3 took apartment 31 first and apartment 30 after it; user 7 is
    an administrator. *)
Definition db_two_homes : db :=
  run 1000 empty_db
      [restart; setapartment 3 ["31"]; setapartment 3 ["30"];
       addadmin 1000 ["7"]].

(* ------------------------------------------------------------------ *)
(** ** Text helpers and read-only handlers *)

(** [s.replace(c, '')] for a one-character [c]. *)
Fixpoint remove_char (c : ascii) (s : string) : string :=
  match s with
  | EmptyString => EmptyString
  | String x rest =>
      if Ascii.eqb x c then remove_char c rest
      else String x (remove_char c rest)
  end.

(** [sanitize_markdown] *)
Definition sanitize_markdown (text : string) : string :=
  match text with
  | EmptyString => ""
  | _ =>
      remove_char "*"
        (remove_char "_"
           (remove_char ")"
              (remove_char "("
                 (remove_char "]"
                    (remove_char "[" text)))))
  end.


(** The fields of a Telegram user the bot reads; an absent field is [None]. *)
Record user := mkuser {
  user_ident : Z;
  username : option string;
  first_name : option string
}.




(** What [start] answers. *)
Inductive start_reply :=
| OnlyInGroup
| AskToRegister
| RegisteredIn (apartment : Z).

(** [start], the handler of /start; [GROUP_ID] is the chat of the house. *)
Definition start (GROUP_ID : Z) (d : db) (user_id chat_id : Z) : start_reply :=
  if negb (chat_id =? GROUP_ID) then OnlyInGroup else
  match fetchone (Sql.select_apartments_of user_id d) with
  | None => AskToRegister
  | Some apartment => RegisteredIn apartment
  end.

(** What [handle_message] does with a text message. *)
Inductive message_action :=
| KeepMessage
| DeleteAndWarn (user_id : Z).

(** [handle_message], the handler of plain text messages; [from_user] is
    [None] for an update without a sender. *)
Definition handle_message (d : db) (from_user : option Z) : message_action :=
  match from_user with
  | None => KeepMessage
  | Some user_id =>
      match fetchone (Sql.select_admin user_id d) with
      | Some _ => KeepMessage
      | None =>
          match fetchone (Sql.select_apartments_of user_id d) with
          | Some _ => KeepMessage
          | None => DeleteAndWarn user_id
          end
      end
  end.

(** The numbers [apartment_stats] prints: per house and in all, the
    occupied, total and free counts; [other_occupied] and whether the
    warning line about it is printed. *)
Record stats := mkstats {
  occupied_house1 : Z; total_house1 : Z; free_house1 : Z;
  occupied_house2 : Z; total_house2 : Z; free_house2 : Z;
  occupied_all : Z; total_all : Z; free_all : Z;
  other_occupied : Z; warns_other : bool
}.

(** SELECT DISTINCT apartment_number FROM apartments *)
Definition select_distinct_numbers (d : db) : list Z :=
  nodup Z.eq_dec (map Apartments.apartment_number (apartments d)).

(** [sum(1 for number in numbers if lo <= number <= hi)] *)
Definition count_between (lo hi : Z) (numbers : list Z) : Z :=
  Z.of_nat (List.length (filter (fun n => (lo <=? n) && (n <=? hi)) numbers)).

(** [apartment_stats], the handler of /apartmentstats; [None] is the
    refusal given to a user who is not an administrator. *)
Definition apartment_stats (d : db) (actor_id : Z) : option stats :=
  if negb (is_admin_user d actor_id) then None else
  let total_house1 := HOUSE1_END - HOUSE1_START + 1 in
  let total_house2 := HOUSE2_END - HOUSE2_START + 1 in
  let total_all := total_house1 + total_house2 in
  let occupied_numbers := select_distinct_numbers d in
  let occupied_house1 := count_between HOUSE1_START HOUSE1_END occupied_numbers in
  let occupied_house2 := count_between HOUSE2_START HOUSE2_END occupied_numbers in
  let occupied_all := occupied_house1 + occupied_house2 in
  let other_occupied := Z.of_nat (List.length occupied_numbers) - occupied_all in
  let free_house1 := Z.max (total_house1 - occupied_house1) 0 in
  let free_house2 := Z.max (total_house2 - occupied_house2) 0 in
  let free_all := Z.max (total_all - occupied_all) 0 in
  Some (mkstats occupied_house1 total_house1 free_house1
                occupied_house2 total_house2 free_house2
                occupied_all total_all free_all
                other_occupied (0 <? other_occupied)).

(** Who sent an update; [None] for the two that no user sends. *)
Definition issuer (c : command) : option Z :=
  match c with
  | setapartment u _ | approve u _ | reject u _ | forceregistration u _
  | deleteapartment u | adminunlink u _ | admindelete u _ | clearrequests u
  | adminassign u _ | addadmin u _ | removeadmin u _ | admin_button u _ => Some u
  | restart | read_only => None
  end.

(** The characters [sanitize_markdown] takes out. *)
Definition markdown_special (c : ascii) : bool :=
  existsb (Ascii.eqb c) ["["; "]"; "("; ")"; "_"; "*"]%char.

(** The number a list of decimal digits denotes after the digits [acc]. *)
Fixpoint uint_value (l : Decimal.uint) (acc : Z) : Z :=
  match l with
  | Decimal.Nil => acc
  | Decimal.D0 l => uint_value l (10 * acc)
  | Decimal.D1 l => uint_value l (10 * acc + 1)
  | Decimal.D2 l => uint_value l (10 * acc + 2)
  | Decimal.D3 l => uint_value l (10 * acc + 3)
  | Decimal.D4 l => uint_value l (10 * acc + 4)
  | Decimal.D5 l => uint_value l (10 * acc + 5)
  | Decimal.D6 l => uint_value l (10 * acc + 6)
  | Decimal.D7 l => uint_value l (10 * acc + 7)
  | Decimal.D8 l => uint_value l (10 * acc + 8)
  | Decimal.D9 l => uint_value l (10 * acc + 9)
  end.

(** The numbers from [lo] to [hi]. *)
Definition units_between (lo hi : Z) : list Z :=
  map (fun k => lo + Z.of_nat k) (seq 0 (Z.to_nat (hi - lo + 1))).

(** The unit has some link, as a test. *)
Definition occupiedb (d : db) (n : Z) : bool :=
  existsb (Sql.in_apartment n) (apartments d).

(** Every link and every request is for a number of one of the two
    houses. *)
Definition numbers_valid (d : db) : Prop :=
  (forall l, In l (apartments d) ->
             is_valid_apartment (Apartments.apartment_number l) = true)
  /\ (forall q, In q (approval_requests d) ->
                is_valid_apartment (Requests.apartment_number q) = true).

(* ------------------------------------------------------------------ *)
(** ** Arguments that are digit strings *)

Lemma digit_value_nonneg c : is_ascii_digit c = true -> 0 <= digit_value c <= 9.
Proof.
  unfold is_ascii_digit, digit_value. intros H.
  apply andb_true_iff in H as [Hlo Hhi].
  apply Nat.leb_le in Hlo. apply Nat.leb_le in Hhi. lia.
Qed.

Lemma int_digits_all_digits s :
  forall acc after_digit,
    all_digits s = true -> 0 <= acc ->
    after_digit = true \/ s <> "" ->
    exists v, int_digits acc after_digit s = Some v /\ 0 <= v.
Proof.
  induction s as [|c rest IH]; intros acc b Hall Hacc Hne; cbn [int_digits].
  - destruct Hne as [-> | Hne]; [eauto | congruence].
  - simpl in Hall. apply andb_true_iff in Hall as [Hc Hrest].
    rewrite Hc. pose proof (digit_value_nonneg c Hc).
    apply IH; [exact Hrest | lia | now left].
Qed.

Lemma int_unsigned c rest :
  is_ascii_digit c = true ->
  int (String c rest) = int_digits 0 false (String c rest).
Proof.
  destruct c as [b0 b1 b2 b3 b4 b5 b6 b7]; intros H.
  destruct b0, b1, b2, b3, b4, b5, b6, b7;
    first [ reflexivity | vm_compute in H; discriminate H ].
Qed.

(** On a digit string [int] does not raise, and the number is a natural. *)
Lemma isdigit_int a :
  isdigit a = true -> exists n, int a = Some n /\ 0 <= n.
Proof.
  destruct a as [|c rest]; [discriminate|]. intros H.
  cbn [isdigit] in H.
  pose proof H as H'. cbn [all_digits] in H'. apply andb_true_iff in H' as [Hc _].
  rewrite (int_unsigned c rest Hc).
  apply int_digits_all_digits; [exact H | lia | right; discriminate].
Qed.

(** Every number of the two houses can be typed: its decimal writing is a
    digit string that [int] reads back. *)
Lemma valid_apartment_written u :
  is_valid_apartment u = true -> isdigit (str u) = true /\ int (str u) = Some u.
Proof.
  intros H.
  assert (Hall : forallb (fun k => let n := Z.of_nat k in
                            isdigit (str n)
                            && match int (str n) with
                               | Some m => m =? n
                               | None => false
                               end)
                         (seq 0 404) = true) by (vm_compute; reflexivity).
  rewrite forallb_forall in Hall.
  assert (Hu : 1 <= u <= 403).
  { unfold is_valid_apartment, HOUSE1_START, HOUSE1_END, HOUSE2_START, HOUSE2_END in H.
    lia. }
  specialize (Hall (Z.to_nat u)). cbv zeta in Hall.
  rewrite Z2Nat.id in Hall by lia.
  assert (Hin : In (Z.to_nat u) (seq 0 404)) by (apply in_seq; lia).
  apply Hall in Hin. apply andb_true_iff in Hin as [Hd Hi].
  split; [exact Hd|].
  destruct (int (str u)) as [m|]; [|discriminate].
  apply Z.eqb_eq in Hi. now subst m.
Qed.

(* ------------------------------------------------------------------ *)
(** ** Facts about the statements *)

Lemma filter_nil_none {A} (f : A -> bool) (l : list A) :
  filter f l = [] <-> forall x, In x l -> f x = false.
Proof.
  induction l as [|y l IH]; simpl.
  - split; [intros _ x [] | reflexivity].
  - destruct (f y) eqn:Hy.
    + split; [discriminate|]. intros H. specialize (H y (or_introl eq_refl)). congruence.
    + rewrite IH. split.
      * intros H x [<-|Hx]; auto.
      * intros H x Hx. apply H. now right.
Qed.

Lemma map_nil_inv {A B} (f : A -> B) (l : list A) : map f l = [] -> l = [].
Proof. destruct l; [reflexivity | discriminate]. Qed.

Lemma index_insert_In r l x :
  In x (Sql.index_insert r l) <-> x = r \/ In x l.
Proof.
  induction l as [|y l IH]; cbn.
  - intuition.
  - destruct (Sql.index_le r y); cbn; rewrite ?IH; intuition.
Qed.

(** The index holds the rows of the table. *)
Lemma index_scan_In l x : In x (Sql.index_scan l) <-> In x l.
Proof.
  unfold Sql.index_scan. induction l as [|y l IH]; cbn; [reflexivity|].
  rewrite index_insert_In, IH. intuition.
Qed.

Lemma index_insert_filtered (f : Apartments.row -> bool) r l :
  f r = false -> filter f (Sql.index_insert r l) = filter f l.
Proof.
  intros Hr. induction l as [|y l IH]; cbn; [now rewrite Hr|].
  destruct (Sql.index_le r y); cbn; [now rewrite Hr|]. now rewrite IH.
Qed.

(** A row added to a table in which no row passes [f]. *)
Lemma index_scan_one (f : Apartments.row -> bool) l x :
  filter f l = [] -> f x = true ->
  filter f (Sql.index_scan (l ++ [x])) = [x].
Proof.
  intros Hl Hx. rewrite filter_nil_none in Hl. unfold Sql.index_scan.
  rewrite fold_right_app. cbn [fold_right Sql.index_insert].
  induction l as [|y l IH]; cbn [fold_right].
  - cbn. now rewrite Hx.
  - rewrite index_insert_filtered by (apply Hl; now left).
    apply IH. intros z Hz. apply Hl. now right.
Qed.

Lemma index_scan_none (f : Apartments.row -> bool) l :
  filter f (Sql.index_scan l) = [] <-> filter f l = [].
Proof.
  rewrite !filter_nil_none. split; intros H x Hx; apply H;
    now apply index_scan_In.
Qed.

(** The index is in order: by apartment, then by user. *)
Ltac index_order :=
  unfold Sql.index_le;
  rewrite ?orb_true_iff, ?orb_false_iff, ?andb_true_iff, ?andb_false_iff,
    ?Z.ltb_lt, ?Z.ltb_ge, ?Z.eqb_eq, ?Z.eqb_neq, ?Z.leb_le, ?Z.leb_gt.

Lemma index_le_total r1 r2 :
  Sql.index_le r1 r2 = false -> Sql.index_le r2 r1 = true.
Proof. index_order. lia. Qed.

Lemma index_le_trans r1 r2 r3 :
  Sql.index_le r1 r2 = true -> Sql.index_le r2 r3 = true ->
  Sql.index_le r1 r3 = true.
Proof. index_order. lia. Qed.

Lemma index_insert_sorted r l :
  StronglySorted (fun x y => Sql.index_le x y = true) l ->
  StronglySorted (fun x y => Sql.index_le x y = true) (Sql.index_insert r l).
Proof.
  induction 1 as [|x l Hs IH Hall]; cbn [Sql.index_insert].
  - constructor; constructor.
  - destruct (Sql.index_le r x) eqn:E.
    + constructor; [now constructor|]. constructor; [exact E|].
      apply Forall_forall. intros y Hy. rewrite Forall_forall in Hall.
      apply (index_le_trans r x y E). now apply Hall.
    + constructor; [exact IH|]. apply Forall_forall. intros y Hy.
      apply index_insert_In in Hy as [->|Hy].
      * now apply index_le_total.
      * rewrite Forall_forall in Hall. now apply Hall.
Qed.

Lemma index_scan_sorted l :
  StronglySorted (fun x y => Sql.index_le x y = true) (Sql.index_scan l).
Proof.
  unfold Sql.index_scan. induction l as [|x l IH]; cbn [fold_right].
  - constructor.
  - now apply index_insert_sorted.
Qed.

Lemma filter_sorted {A} (R : A -> A -> Prop) (f : A -> bool) (l : list A) :
  StronglySorted R l -> StronglySorted R (filter f l).
Proof.
  induction 1 as [|x l Hs IH Hall]; cbn [filter]; [constructor|].
  destruct (f x); [|exact IH]. constructor; [exact IH|].
  apply Forall_forall. intros y Hy. apply filter_In in Hy as [Hy _].
  rewrite Forall_forall in Hall. now apply Hall.
Qed.

Lemma map_sorted {A} (R : A -> A -> Prop) (g : A -> Z) (l : list A) :
  (forall x y, In x l -> In y l -> R x y -> g x <= g y) ->
  StronglySorted R l -> StronglySorted Z.le (map g l).
Proof.
  intros Hg Hs. induction Hs as [|x l Hs IH Hall]; cbn [map]; [constructor|].
  constructor.
  - apply IH. intros y z Hy Hz. apply Hg; now right.
  - apply Forall_forall. intros n Hn. apply in_map_iff in Hn as [y [<- Hy]].
    rewrite Forall_forall in Hall. apply Hg; [now left | now right | now apply Hall].
Qed.

(** The residents of an apartment come by ascending user id. *)
Lemma residents_sorted n d : StronglySorted Z.le (Sql.select_residents n d).
Proof.
  unfold Sql.select_residents.
  apply (map_sorted (fun x y => Sql.index_le x y = true)).
  - intros x y Hx Hy. apply filter_In in Hx as [_ Hx].
    apply filter_In in Hy as [_ Hy]. unfold Sql.in_apartment in Hx, Hy.
    revert Hx Hy. index_order. lia.
  - apply filter_sorted, index_scan_sorted.
Qed.

(** The apartments of a user come by ascending number. *)
Lemma apartments_of_sorted u d :
  StronglySorted Z.le (Sql.select_apartments_of u d).
Proof.
  unfold Sql.select_apartments_of.
  apply (map_sorted (fun x y => Sql.index_le x y = true)).
  - intros x y _ _. index_order. lia.
  - apply filter_sorted, index_scan_sorted.
Qed.

Lemma sorted_head_least x l n :
  StronglySorted Z.le (x :: l) -> In n (x :: l) -> x <= n.
Proof.
  intros Hs [<-|Hn]; [lia|]. apply StronglySorted_inv in Hs as [_ Hall].
  rewrite Forall_forall in Hall. now apply Hall.
Qed.

Lemma residents_In n d x :
  In x (Sql.select_residents n d)
  <-> exists l, In l (apartments d)
                /\ Apartments.apartment_number l = n
                /\ Apartments.user_id l = x.
Proof.
  unfold Sql.select_residents. rewrite in_map_iff. split.
  - intros [l [Hx Hl]]. apply filter_In in Hl as [Hl Hn].
    apply (proj1 (index_scan_In _ _)) in Hl. apply Z.eqb_eq in Hn. eauto.
  - intros [l [Hl [Hn Hx]]]. exists l. split; [exact Hx|].
    apply filter_In. split; [now apply index_scan_In|]. now apply Z.eqb_eq.
Qed.

Lemma apartments_of_In u d n :
  In n (Sql.select_apartments_of u d)
  <-> exists l, In l (apartments d)
                /\ Apartments.user_id l = u
                /\ Apartments.apartment_number l = n.
Proof.
  unfold Sql.select_apartments_of. rewrite in_map_iff. split.
  - intros [l [Hx Hl]]. apply filter_In in Hl as [Hl Hn].
    apply (proj1 (index_scan_In _ _)) in Hl. apply Z.eqb_eq in Hn. eauto.
  - intros [l [Hl [Hn Hx]]]. exists l. split; [exact Hx|].
    apply filter_In. split; [now apply index_scan_In|]. now apply Z.eqb_eq.
Qed.

(** The first resident found is a resident, the one of the smallest id. *)
Lemma first_resident_smallest n d first others :
  Sql.select_residents n d = first :: others ->
  (exists l, In l (apartments d)
             /\ Apartments.apartment_number l = n
             /\ Apartments.user_id l = first)
  /\ (forall l, In l (apartments d) -> Apartments.apartment_number l = n ->
                first <= Apartments.user_id l).
Proof.
  intros E. split.
  - apply residents_In. rewrite E. now left.
  - intros l Hl Hn. apply (sorted_head_least first others).
    + rewrite <- E. apply residents_sorted.
    + rewrite <- E. apply residents_In. eauto.
Qed.

(** The first apartment found for a user is the one of the smallest
    number among the user's. *)
Lemma first_apartment_smallest u d n others :
  Sql.select_apartments_of u d = n :: others ->
  (exists l, In l (apartments d)
             /\ Apartments.user_id l = u
             /\ Apartments.apartment_number l = n)
  /\ (forall l, In l (apartments d) -> Apartments.user_id l = u ->
                n <= Apartments.apartment_number l).
Proof.
  intros E. split.
  - apply apartments_of_In. rewrite E. now left.
  - intros l Hl Hu. apply (sorted_head_least n others).
    + rewrite <- E. apply apartments_of_sorted.
    + rewrite <- E. apply apartments_of_In. eauto.
Qed.

Lemma residents_none n d :
  Sql.select_residents n d = [] <-> ~ occupied n d.
Proof.
  unfold Sql.select_residents, occupied. split.
  - intros H [l [Hin Hn]]. apply map_nil_inv in H. apply (proj1 (index_scan_none _ _)) in H.
    rewrite filter_nil_none in H. specialize (H l Hin).
    unfold Sql.in_apartment in H. rewrite Hn, Z.eqb_refl in H. discriminate.
  - intros H.
    replace (filter (Sql.in_apartment n) (Sql.index_scan (apartments d)))
      with (@nil Apartments.row); [reflexivity|].
    symmetry. apply index_scan_none, filter_nil_none. intros l Hin.
    unfold Sql.in_apartment. destruct (Z.eqb_spec (Apartments.apartment_number l) n); auto.
    exfalso. apply H. eauto.
Qed.

Lemma apartments_of_none u d :
  Sql.select_apartments_of u d = [] <-> ~ holds_link u d.
Proof.
  unfold Sql.select_apartments_of, holds_link. split.
  - intros H [l [Hin Hu]]. apply map_nil_inv in H. apply (proj1 (index_scan_none _ _)) in H.
    rewrite filter_nil_none in H. specialize (H l Hin).
    unfold Sql.of_user in H. rewrite Hu, Z.eqb_refl in H. discriminate.
  - intros H.
    replace (filter (Sql.of_user u) (Sql.index_scan (apartments d)))
      with (@nil Apartments.row); [reflexivity|].
    symmetry. apply index_scan_none, filter_nil_none. intros l Hin.
    unfold Sql.of_user. destruct (Z.eqb_spec (Apartments.user_id l) u); auto.
    exfalso. apply H. eauto.
Qed.

Lemma status_eqb_eq a b : status_eqb a b = true <-> a = b.
Proof. destruct a, b; simpl; split; congruence. Qed.

Lemma pending_none requester approver d :
  Sql.select_pending requester approver d = [] <-> ~ has_pending requester approver d.
Proof.
  unfold Sql.select_pending, has_pending. split.
  - intros H [q [Hin [Hr [Ha Hs]]]]. apply map_nil_inv in H.
    rewrite filter_nil_none in H. specialize (H q Hin).
    unfold Sql.between, Sql.is_pending in H.
    rewrite Hr, Ha, Hs, !Z.eqb_refl in H. discriminate.
  - intros H.
    match goal with |- map _ ?l = [] => replace l with (@nil Requests.row) end;
      [reflexivity|].
    symmetry. apply filter_nil_none. intros q Hin.
    destruct (Sql.between requester approver q && Sql.is_pending q) eqn:E; auto.
    exfalso. apply H. exists q.
    apply andb_true_iff in E as [Hb Hp].
    unfold Sql.between in Hb. apply andb_true_iff in Hb as [Hr Ha].
    apply Z.eqb_eq in Hr. apply Z.eqb_eq in Ha.
    apply status_eqb_eq in Hp. auto.
Qed.

(** The insert cannot violate the uniqueness of (apartment, user) when the
    apartment has no row. *)
Lemma insert_apartment_vacant n u d :
  Sql.select_residents n d = [] ->
  Sql.insert_apartment n u d =
    Some (mkdb (apartments d ++ [Apartments.mk (Sql.next_apartment_id d) n u])
               (admins d) (approval_requests d)
               (Sql.next_apartment_id d) (approval_requests_seq d)).
Proof.
  intros H. unfold Sql.insert_apartment, Sql.select_residents in *.
  apply map_nil_inv in H. apply (proj1 (index_scan_none _ _)) in H.
  rewrite filter_nil_none in H.
  replace (existsb _ _) with false; [reflexivity|].
  symmetry. apply not_true_is_false. intros E.
  apply existsb_exists in E as [l [Hin Hl]].
  rewrite (H l Hin) in Hl. discriminate.
Qed.

(** Nor when the user has no row. *)
Lemma insert_apartment_homeless n u d :
  Sql.select_apartments_of u d = [] ->
  Sql.insert_apartment n u d =
    Some (mkdb (apartments d ++ [Apartments.mk (Sql.next_apartment_id d) n u])
               (admins d) (approval_requests d)
               (Sql.next_apartment_id d) (approval_requests_seq d)).
Proof.
  intros H. unfold Sql.insert_apartment, Sql.select_apartments_of in *.
  apply map_nil_inv in H. apply (proj1 (index_scan_none _ _)) in H.
  rewrite filter_nil_none in H.
  replace (existsb _ _) with false; [reflexivity|].
  symmetry. apply not_true_is_false. intros E.
  apply existsb_exists in E as [l [Hin Hl]].
  rewrite (H l Hin), andb_false_r in Hl. discriminate.
Qed.

(* ------------------------------------------------------------------ *)
(** ** Submitting a claim: /setapartment *)

(** C3.  A claim for a number that lies in neither house is refused as a
    validation error, whatever the way the number is written, and the
    database is left as it was: no link, no request.  Written as a digit
    string, the number gets the wrong-number reply. *)
Theorem submit_claim_out_of_range :
  forall d r a u,
    int a = Some u -> is_valid_apartment u = false ->
    fst (request_apartment_access d r [a]) = d
    /\ error_of (snd (request_apartment_access d r [a])) = Some ValidationError
    /\ (isdigit a = true ->
        snd (request_apartment_access d r [a]) = WrongApartmentNumber).
Proof.
  intros d r a u Hint Hbad. unfold request_apartment_access.
  destruct (isdigit a) eqn:Hd; simpl.
  - rewrite Hint, Hbad. simpl. auto.
  - repeat split. discriminate.
Qed.

Lemma submit_claim_out_of_range_witness :
  int "999" = Some 999 /\ is_valid_apartment 999 = false
  /\ fst (request_apartment_access db_one_resident 3 ["999"]) = db_one_resident
  /\ error_of (snd (request_apartment_access db_one_resident 3 ["999"]))
     = Some ValidationError
  /\ (isdigit "999" = true ->
      snd (request_apartment_access db_one_resident 3 ["999"])
      = WrongApartmentNumber).
Proof.
  split; [reflexivity|]. split; [reflexivity|].
  apply (submit_claim_out_of_range db_one_resident 3 "999" 999); reflexivity.
Defined.

(** C2.  A claim for a number of one of the two houses: when the apartment
    has no link, exactly one link (apartment, requester) is added and the
    requests are untouched; when it has a link, exactly one request is
    added, pending, for that apartment and requester, and the links are
    untouched. *)
Theorem submit_claim_effect :
  forall d r a u,
    isdigit a = true -> int a = Some u -> is_valid_apartment u = true ->
    (~ occupied u d ->
       apartments (fst (request_apartment_access d r [a]))
       = apartments d ++ [Apartments.mk (Sql.next_apartment_id d) u r]
       /\ approval_requests (fst (request_apartment_access d r [a]))
          = approval_requests d)
    /\
    (occupied u d ->
       (exists q,
           approval_requests (fst (request_apartment_access d r [a]))
           = approval_requests d ++ [q]
           /\ Requests.status q = pending
           /\ Requests.apartment_number q = u
           /\ Requests.requesting_user_id q = r)
       /\ apartments (fst (request_apartment_access d r [a])) = apartments d).
Proof.
  intros d r a u Hd Hint Hok. unfold request_apartment_access.
  rewrite Hd, Hint, Hok. cbn [negb]. split.
  - intros Hfree. apply residents_none in Hfree.
    rewrite Hfree, (insert_apartment_vacant u r d Hfree). simpl. auto.
  - intros Hocc. destruct (Sql.select_residents u d) as [|first others] eqn:E.
    + apply residents_none in E. contradiction.
    + simpl. split; [|reflexivity].
      eexists. split; [reflexivity|]. simpl. auto.
Qed.

Lemma submit_claim_effect_witness :
  isdigit "10" = true /\ int "10" = Some 10 /\ is_valid_apartment 10 = true
  /\ (~ occupied 10 db_one_resident ->
       apartments (fst (request_apartment_access db_one_resident 2 ["10"]))
       = apartments db_one_resident
         ++ [Apartments.mk (Sql.next_apartment_id db_one_resident) 10 2]
       /\ approval_requests (fst (request_apartment_access db_one_resident 2 ["10"]))
          = approval_requests db_one_resident)
  /\ (occupied 10 db_one_resident ->
       (exists q,
           approval_requests (fst (request_apartment_access db_one_resident 2 ["10"]))
           = approval_requests db_one_resident ++ [q]
           /\ Requests.status q = pending
           /\ Requests.apartment_number q = 10
           /\ Requests.requesting_user_id q = 2)
       /\ apartments (fst (request_apartment_access db_one_resident 2 ["10"]))
          = apartments db_one_resident).
Proof.
  split; [reflexivity|]. split; [reflexivity|]. split; [reflexivity|].
  apply (submit_claim_effect db_one_resident 2 "10" 10); reflexivity.
Defined.

(** Both cases of the statement above occur: apartment 10 is occupied in
    the sample registry and apartment 11 is not. *)
Example submit_claim_cases_occur :
  occupied 10 db_one_resident /\ ~ occupied 11 db_one_resident.
Proof.
  split.
  - exists (Apartments.mk 1 10 1). split; [left|]; reflexivity.
  - apply residents_none. reflexivity.
Qed.

(** C5.  A claim for an occupied apartment binds one approver to the one
    request it creates: the resident of the first row the residents query
    returns, however many residents there are.  The query is answered
    from the index of (apartment, user), so that first row is the one of
    the resident of the smallest id, whoever moved in first. *)
Theorem submit_claim_approver_is_first_resident :
  forall d r a u first others,
    isdigit a = true -> int a = Some u -> is_valid_apartment u = true ->
    Sql.select_residents u d = first :: others ->
    approval_requests (fst (request_apartment_access d r [a]))
    = approval_requests d
      ++ [Requests.mk (Sql.next_request_id d) u r first pending]
    /\ snd (request_apartment_access d r [a]) = AccessRequested r first u
    /\ (exists l, In l (apartments d)
                  /\ Apartments.apartment_number l = u
                  /\ Apartments.user_id l = first)
    /\ (forall l, In l (apartments d) -> Apartments.apartment_number l = u ->
                  first <= Apartments.user_id l).
Proof.
  intros d r a u first others Hd Hint Hok Hres.
  split; [|split; [|exact (first_resident_smallest u d first others Hres)]];
    unfold request_apartment_access; rewrite Hd, Hint, Hok, Hres; reflexivity.
Qed.

Lemma submit_claim_approver_is_first_resident_witness :
  isdigit "10" = true /\ int "10" = Some 10 /\ is_valid_apartment 10 = true
  /\ apartments db_later_neighbour
     = [Apartments.mk 1 10 5; Apartments.mk 2 10 2]
  /\ Sql.select_residents 10 db_later_neighbour = [2; 5]
  /\ approval_requests (fst (request_apartment_access db_later_neighbour 3 ["10"]))
     = approval_requests db_later_neighbour
       ++ [Requests.mk (Sql.next_request_id db_later_neighbour) 10 3 2 pending]
  /\ snd (request_apartment_access db_later_neighbour 3 ["10"])
     = AccessRequested 3 2 10.
Proof.
  split; [reflexivity|]. split; [reflexivity|]. split; [reflexivity|].
  split; [reflexivity|]. split; [reflexivity|].
  pose proof (submit_claim_approver_is_first_resident
                db_later_neighbour 3 "10" 10 2 [5]
                eq_refl eq_refl eq_refl eq_refl) as H.
  split; [exact (proj1 H) | exact (proj1 (proj2 H))].
Defined.

(* ------------------------------------------------------------------ *)
(** ** Approving and rejecting: /approve, /reject *)

Lemma between_pending_true q :
  Sql.between (Requests.requesting_user_id q) (Requests.approver_user_id q) q
  && Sql.is_pending q = true <-> Requests.status q = pending.
Proof.
  unfold Sql.between, Sql.is_pending. rewrite !Z.eqb_refl. simpl.
  apply status_eqb_eq.
Qed.







(** The other cases on the sample registries: user 1 lets user 2, who
    has no link, into apartment 10; and a user nobody asked is not found. *)
Example approve_request_grants :
  approve_request db_pending 1 ["2"]
  = (mkdb [Apartments.mk 1 10 1; Apartments.mk 2 10 2]
          [Admins.mk 1000 None]
          [Requests.mk 1 10 2 1 approved] 2 1,
     AccessGranted 2 10)
  /\ approve_request db_pending 1 ["5"] = (db_pending, RequestNotFound).
Proof. split; reflexivity. Qed.

(** C1.  A request that has left 'pending' is meant to keep its status for
    good; /reject breaks this.  In the sample registry request 1
    (user 2 asking user 1 for apartment 10) is approved and request 2, by
    the same two users, is pending.  User 1 rejecting user 2 is accepted
    because of request 2, and the update, which does not look at the
    status, turns the approved request 1 into a rejected one as well. *)
Theorem reject_request_overwrites_approved :
  status_of 1 db_second_request = Some approved
  /\ status_of 2 db_second_request = Some pending
  /\ snd (reject_request db_second_request 1 ["2"]) = RequestRejected 2 10
  /\ status_of 1 (fst (reject_request db_second_request 1 ["2"])) = Some rejected.
Proof. repeat split. Qed.

(* ------------------------------------------------------------------ *)
(** ** Releasing one's own links: /deleteapartment *)

Lemma filter_In_neg {A} (f : A -> bool) (l : list A) (x : A) :
  In x (filter (fun y => negb (f y)) l) <-> In x l /\ f x = false.
Proof. rewrite filter_In, negb_true_iff. reflexivity. Qed.

(** C10.  /deleteapartment by a user who holds a link removes every link of
    that user, in whatever apartments, and keeps all other links; the reply
    names the apartment of the first link found only, which, the query
    being answered from the index of (apartment, user), is the user's
    apartment of the smallest number.  By a user without a link it changes
    nothing and says that there is no link. *)
Theorem delete_apartment_effect :
  forall d u,
    (holds_link u d ->
       exists n others,
         Sql.select_apartments_of u d = n :: others
         /\ snd (delete_apartment d u) = LinkDeleted u n
         /\ (forall l, In l (apartments d) -> Apartments.user_id l = u ->
                       n <= Apartments.apartment_number l)
         /\ ~ holds_link u (fst (delete_apartment d u))
         /\ (forall l, In l (apartments (fst (delete_apartment d u)))
                       <-> In l (apartments d) /\ Apartments.user_id l <> u)
         /\ approval_requests (fst (delete_apartment d u)) = approval_requests d
         /\ admins (fst (delete_apartment d u)) = admins d)
    /\
    (~ holds_link u d -> delete_apartment d u = (d, NoLinkedApartment)).
Proof.
  intros d u. unfold delete_apartment. split.
  - intros H. destruct (Sql.select_apartments_of u d) as [|n others] eqn:E.
    { apply apartments_of_none in E. contradiction. }
    exists n, others. cbn [fetchone hd_error fst snd].
    assert (Hkeep : forall l,
               In l (apartments (Sql.delete_user_links u d))
               <-> In l (apartments d) /\ Apartments.user_id l <> u).
    { intros l. cbn. rewrite filter_In_neg. unfold Sql.of_user.
      rewrite Z.eqb_neq. reflexivity. }
    split; [reflexivity|]. split; [reflexivity|].
    split; [exact (proj2 (first_apartment_smallest u d n others E))|].
    split; [|split; [exact Hkeep|split; reflexivity]].
    intros [l [Hin Hu]]. apply Hkeep in Hin. tauto.
  - intros H. apply apartments_of_none in H. rewrite H. reflexivity.
Qed.

Lemma delete_apartment_effect_witness :
  apartments db_two_homes = [Apartments.mk 1 31 3; Apartments.mk 2 30 3]
  /\ Sql.select_apartments_of 3 db_two_homes = [30; 31]
  /\ delete_apartment db_two_homes 3
     = (set_apartments [] db_two_homes, LinkDeleted 3 30)
  /\ exists n others,
      Sql.select_apartments_of 3 db_two_homes = n :: others
      /\ snd (delete_apartment db_two_homes 3) = LinkDeleted 3 n
      /\ (forall l, In l (apartments db_two_homes) ->
                    Apartments.user_id l = 3 ->
                    n <= Apartments.apartment_number l)
      /\ ~ holds_link 3 (fst (delete_apartment db_two_homes 3))
      /\ (forall l, In l (apartments (fst (delete_apartment db_two_homes 3)))
                    <-> In l (apartments db_two_homes)
                        /\ Apartments.user_id l <> 3)
      /\ approval_requests (fst (delete_apartment db_two_homes 3))
         = approval_requests db_two_homes
      /\ admins (fst (delete_apartment db_two_homes 3)) = admins db_two_homes.
Proof.
  split; [reflexivity|]. split; [reflexivity|]. split; [reflexivity|].
  apply (proj1 (delete_apartment_effect db_two_homes 3)).
  exists (Apartments.mk 1 31 3).
  split; [left; reflexivity | reflexivity].
Defined.

(* ------------------------------------------------------------------ *)
(** ** Full reset: /forceregistration *)

(** C9.  The reset goes through exactly when the caller is the main
    administrator and the first argument is the secret code.  When it goes
    through, no link and no request of any status is left and the
    administrators are the same as before; when it does not, the database
    is the same as before. *)
Theorem force_registration_effect :
  forall MAIN d user args,
    (snd (force_registration MAIN d user args) = DatabaseCleared
     <-> user = MAIN /\ exists rest, args = FORCE_REGISTRATION_CODE :: rest)
    /\ (snd (force_registration MAIN d user args) = DatabaseCleared ->
        apartments (fst (force_registration MAIN d user args)) = []
        /\ approval_requests (fst (force_registration MAIN d user args)) = []
        /\ admins (fst (force_registration MAIN d user args)) = admins d)
    /\ (snd (force_registration MAIN d user args) <> DatabaseCleared ->
        fst (force_registration MAIN d user args) = d).
Proof.
  intros MAIN d user args. unfold force_registration.
  destruct (Z.eqb_spec user MAIN) as [Hu|Hu]; cbn [negb].
  - destruct args as [|a rest].
    + cbn. repeat split; try discriminate.
      intros [_ [rest H]]. discriminate.
    + destruct (String.eqb_spec a FORCE_REGISTRATION_CODE) as [Ha|Ha]; cbn.
      * subst a. repeat split; eauto. congruence.
      * repeat split; try discriminate.
        intros [_ [rest' H]]. congruence.
  - cbn. repeat split; try discriminate. intros [H _]. contradiction.
Qed.

Lemma force_registration_effect_witness :
  force_registration 1000 db_crowded 1000 ["2512"]
  = (mkdb [] (admins db_crowded) [] 4 2, DatabaseCleared)
  /\ force_registration 1000 db_crowded 7 ["2512"] = (db_crowded, MainAdminOnly)
  /\ force_registration 1000 db_crowded 1000 ["2513"] = (db_crowded, AskSecretCode)
  /\ (snd (force_registration 1000 db_crowded 1000 ["2512"]) = DatabaseCleared
      <-> 1000 = 1000 /\ exists rest, ["2512"] = FORCE_REGISTRATION_CODE :: rest).
Proof.
  split; [reflexivity|]. split; [reflexivity|]. split; [reflexivity|].
  apply (proj1 (force_registration_effect 1000 db_crowded 1000 ["2512"])).
Defined.

(* ------------------------------------------------------------------ *)
(** ** Clearing the queue *)

Lemma filter_length_split {A} (f : A -> bool) (l : list A) :
  (List.length l
   = List.length (filter f l) + List.length (filter (fun x => negb (f x)) l))%nat.
Proof.
  induction l as [|x l IH]; simpl; [reflexivity|].
  destruct (f x); simpl; lia.
Qed.

Lemma filter_none {A} (f : A -> bool) (l : list A) :
  filter f (filter (fun x => negb (f x)) l) = [].
Proof.
  apply filter_nil_none. intros x Hx.
  apply filter_In in Hx as [_ Hx]. now apply negb_true_iff.
Qed.

Lemma filter_again {A} (f : A -> bool) (l : list A) :
  filter f (filter f l) = filter f l.
Proof.
  induction l as [|x l IH]; simpl; [reflexivity|].
  destruct (f x) eqn:E; simpl; [rewrite E, IH|]; auto.
Qed.

(** C7.  [clear_pending_requests_from_db] removes the rows that are
    pending and no other row, in particular no approved or rejected one;
    the number it returns is the number of pending rows there were, which
    is the number of rows removed; the links and the administrators are
    untouched.  Called again on the result it removes nothing and returns
    0. *)
Theorem clear_pending_requests_effect :
  forall d,
    (forall q, In q (approval_requests (fst (clear_pending_requests_from_db d)))
               <-> In q (approval_requests d) /\ Requests.status q <> pending)
    /\ approval_requests (fst (clear_pending_requests_from_db d))
       = filter (fun q => negb (status_eqb (Requests.status q) pending))
                (approval_requests d)
    /\ snd (clear_pending_requests_from_db d)
       = Z.of_nat (List.length
                     (filter (fun q => status_eqb (Requests.status q) pending)
                             (approval_requests d)))
    /\ Z.of_nat (List.length (approval_requests d))
       = Z.of_nat (List.length
                     (approval_requests (fst (clear_pending_requests_from_db d))))
         + snd (clear_pending_requests_from_db d)
    /\ apartments (fst (clear_pending_requests_from_db d)) = apartments d
    /\ admins (fst (clear_pending_requests_from_db d)) = admins d
    /\ clear_pending_requests_from_db (fst (clear_pending_requests_from_db d))
       = (fst (clear_pending_requests_from_db d), 0).
Proof.
  intros d. unfold clear_pending_requests_from_db, Sql.delete_pending.
  cbn [fst snd approval_requests apartments admins set_approval_requests].
  split; [|split; [|split; [|split; [|split; [|split]]]]]; try reflexivity.
  - intros q. rewrite filter_In_neg. unfold Sql.is_pending.
    split; intros [Hin Hs]; (split; [exact Hin|]).
    + intros E. rewrite E in Hs. discriminate.
    + destruct (Requests.status q); auto. congruence.
  - rewrite (filter_length_split Sql.is_pending (approval_requests d)). lia.
  - f_equal.
    + unfold set_approval_requests. cbn. now rewrite filter_again.
    + now rewrite filter_none.
Qed.

Lemma clear_pending_requests_effect_witness :
  clear_pending_requests_from_db db_second_request
  = (set_approval_requests [Requests.mk 1 10 2 1 approved] db_second_request, 1)
  /\ clear_pending_requests_from_db
       (fst (clear_pending_requests_from_db db_second_request))
     = (fst (clear_pending_requests_from_db db_second_request), 0).
Proof.
  split; [reflexivity|].
  apply (clear_pending_requests_effect db_second_request).
Defined.

(* ------------------------------------------------------------------ *)
(** ** Forced assignment: /adminassign *)

Lemma filter_app_last {A} (f : A -> bool) (l : list A) (x : A) :
  filter f l = [] -> f x = true -> filter f (l ++ [x]) = [x].
Proof. intros Hl Hx. rewrite filter_app, Hl. simpl. now rewrite Hx. Qed.

Lemma unrelated_links_In n u d l :
  In l (unrelated_links n u d)
  <-> In l (apartments d)
      /\ Apartments.apartment_number l <> n /\ Apartments.user_id l <> u.
Proof.
  unfold unrelated_links. rewrite !filter_In_neg.
  unfold Sql.of_user, Sql.in_apartment. rewrite !Z.eqb_neq. tauto.
Qed.

Lemma unrelated_links_no_unit n u d :
  filter (Sql.in_apartment n) (unrelated_links n u d) = [].
Proof.
  apply filter_nil_none. intros l Hl. apply unrelated_links_In in Hl.
  unfold Sql.in_apartment. apply Z.eqb_neq. tauto.
Qed.

Lemma unrelated_links_no_user n u d :
  filter (Sql.of_user u) (unrelated_links n u d) = [].
Proof.
  apply filter_nil_none. intros l Hl. apply unrelated_links_In in Hl.
  unfold Sql.of_user. apply Z.eqb_neq. tauto.
Qed.

Lemma residents_after_deletes n x d :
  Sql.select_residents n
    (Sql.delete_user_links x (Sql.delete_apartment_number n d)) = [].
Proof.
  apply residents_none. intros [l [Hin Hn]]. cbn in Hin.
  fold (unrelated_links n x d) in Hin. apply unrelated_links_In in Hin. tauto.
Qed.

(** What an accepted /adminassign leaves in the database. *)
Lemma admin_assign_accepted d actor a0 a1 rest u x :
  is_admin_user d actor = true ->
  int a0 = Some u -> int a1 = Some x -> is_valid_apartment u = true ->
  sqlite_integer x = true ->
  admin_assign d actor (a0 :: a1 :: rest)
  = (let new_id :=
       Sql.next_id (apartments_seq d)
                   (map Apartments.id (unrelated_links u x d)) in
     mkdb (unrelated_links u x d ++ [Apartments.mk new_id u x])
          (admins d)
          (map (fun q => if Sql.claim_of u x q && Sql.is_pending q
                         then Requests.mk (Requests.id q)
                                          (Requests.apartment_number q)
                                          (Requests.requesting_user_id q)
                                          actor approved
                         else q)
               (approval_requests d))
          new_id (approval_requests_seq d),
     Assigned u x (Sql.select_residents u d) (Sql.select_apartments_of x d)).
Proof.
  intros Hadm H0 H1 Hok Hx. unfold admin_assign.
  rewrite Hadm, H0, H1, Hok, Hx. cbn [negb].
  rewrite insert_apartment_vacant by apply residents_after_deletes.
  reflexivity.
Qed.

(** C6.  /adminassign by an administrator, for a number [u] of one of the
    two houses and a user [x] whose id is a 64-bit integer, from any
    database: afterwards [u] has exactly one link and it is [x]'s, [x] has
    no link to another apartment, and the links of other users to other
    apartments are kept; every request of [x] for [u] that was pending is
    approved and names the acting administrator as approver, and the other
    requests are as they were. *)
Theorem admin_assign_effect :
  forall d actor a0 a1 rest u x,
    is_admin_user d actor = true ->
    int a0 = Some u -> int a1 = Some x -> is_valid_apartment u = true ->
    sqlite_integer x = true ->
    (exists i,
        links_of_unit u (fst (admin_assign d actor (a0 :: a1 :: rest)))
        = [Apartments.mk i u x]
        /\ links_of_user x (fst (admin_assign d actor (a0 :: a1 :: rest)))
           = [Apartments.mk i u x])
    /\ (forall l,
           In l (apartments d) ->
           Apartments.apartment_number l <> u -> Apartments.user_id l <> x ->
           In l (apartments (fst (admin_assign d actor (a0 :: a1 :: rest)))))
    /\ (forall q,
           In q (approval_requests d) ->
           Requests.apartment_number q = u ->
           Requests.requesting_user_id q = x ->
           Requests.status q = pending ->
           In (Requests.mk (Requests.id q) u x actor approved)
              (approval_requests (fst (admin_assign d actor (a0 :: a1 :: rest)))))
    /\ (forall q,
           In q (approval_requests d) ->
           ~ (Requests.apartment_number q = u
              /\ Requests.requesting_user_id q = x
              /\ Requests.status q = pending) ->
           In q (approval_requests (fst (admin_assign d actor (a0 :: a1 :: rest))))).
Proof.
  intros d actor a0 a1 rest u x Hadm H0 H1 Hok Hx.
  rewrite (admin_assign_accepted d actor a0 a1 rest u x Hadm H0 H1 Hok Hx).
  cbn [fst apartments approval_requests]. unfold links_of_unit, links_of_user.
  split; [|split; [|split]].
  - eexists. split.
    + apply filter_app_last; [apply unrelated_links_no_unit|].
      unfold Sql.in_apartment. cbn. apply Z.eqb_refl.
    + apply filter_app_last; [apply unrelated_links_no_user|].
      unfold Sql.of_user. cbn. apply Z.eqb_refl.
  - intros l Hin Hn Hu. apply in_or_app. left.
    apply unrelated_links_In. auto.
  - intros q Hin Hn Hr Hs. apply in_map_iff. exists q. split; [|exact Hin].
    unfold Sql.claim_of, Sql.is_pending.
    rewrite Hn, Hr, Hs, !Z.eqb_refl. reflexivity.
  - intros q Hin Hnot. apply in_map_iff. exists q. split; [|exact Hin].
    destruct (Sql.claim_of u x q && Sql.is_pending q) eqn:E; [|reflexivity].
    exfalso. apply Hnot. apply andb_true_iff in E as [Hc Hp].
    unfold Sql.claim_of in Hc. apply andb_true_iff in Hc as [Hn Hr].
    apply Z.eqb_eq in Hn. apply Z.eqb_eq in Hr. apply status_eqb_eq in Hp. auto.
Qed.

(** An id outside the 64 bits stops /adminassign at its second SELECT:
    the OverflowError leaves the handler and nothing is assigned. *)
Lemma admin_assign_overflow d actor a0 a1 rest u x :
  is_admin_user d actor = true ->
  int a0 = Some u -> int a1 = Some x -> is_valid_apartment u = true ->
  sqlite_integer x = false ->
  admin_assign d actor (a0 :: a1 :: rest) = (d, Raised OverflowError).
Proof.
  intros Hadm H0 H1 Hok Hx. unfold admin_assign.
  now rewrite Hadm, H0, H1, Hok, Hx.
Qed.

Lemma admin_assign_effect_witness :
  is_admin_user db_crowded 7 = true
  /\ int "10" = Some 10 /\ int "3" = Some 3 /\ is_valid_apartment 10 = true
  /\ sqlite_integer 3 = true
  /\ admin_assign db_crowded 7 ["10"; "3"]
     = (mkdb [Apartments.mk 5 10 3]
             (admins db_crowded)
             [Requests.mk 1 10 2 1 approved; Requests.mk 2 10 3 7 approved] 5 2,
        Assigned 10 3 [1; 2] [30; 31])
  /\ exists i,
      links_of_unit 10 (fst (admin_assign db_crowded 7 ["10"; "3"]))
      = [Apartments.mk i 10 3]
      /\ links_of_user 3 (fst (admin_assign db_crowded 7 ["10"; "3"]))
         = [Apartments.mk i 10 3].
Proof.
  split; [reflexivity|]. split; [reflexivity|]. split; [reflexivity|].
  split; [reflexivity|]. split; [reflexivity|]. split; [reflexivity|].
  apply (proj1 (admin_assign_effect db_crowded 7 "10" "3" [] 10 3
                  eq_refl eq_refl eq_refl eq_refl eq_refl)).
Defined.

(* ------------------------------------------------------------------ *)
(** ** The administrators *)

(** Case analysis on every test a handler makes. *)
Ltac handler_cases :=
  repeat match goal with
         | |- context [match ?x with _ => _ end] => destruct x eqn:?
         end.

Lemma is_admin_user_In d u :
  is_admin_user d u = true <-> In u (map Admins.user_id (admins d)).
Proof.
  unfold is_admin_user, Sql.select_admin, fetchone. split.
  - destruct (filter _ (admins d)) as [|x l] eqn:E; [discriminate|]. intros _.
    assert (Hx : In x (filter (fun a => Admins.user_id a =? u) (admins d)))
      by (rewrite E; now left).
    apply filter_In in Hx as [Hin Hu]. apply Z.eqb_eq in Hu. subst u.
    now apply in_map.
  - intros H. apply in_map_iff in H as [x [Hu Hin]].
    destruct (filter _ (admins d)) as [|y l] eqn:E; [|reflexivity].
    exfalso. rewrite filter_nil_none in E. specialize (E x Hin).
    rewrite Hu, Z.eqb_refl in E. discriminate.
Qed.

Lemma insert_apartment_frame n u d d' :
  Sql.insert_apartment n u d = Some d' ->
  admins d' = admins d /\ approval_requests d' = approval_requests d.
Proof.
  unfold Sql.insert_apartment. destruct (existsb _ _); [discriminate|].
  intros H. injection H as <-. auto.
Qed.

Lemma insert_or_ignore_admin_keeps u by_whom d x :
  In x (map Admins.user_id (admins d)) ->
  In x (map Admins.user_id (admins (Sql.insert_or_ignore_admin u by_whom d))).
Proof.
  unfold Sql.insert_or_ignore_admin. destruct (existsb _ _); [auto|].
  cbn. rewrite map_app, in_app_iff. auto.
Qed.

Lemma insert_or_ignore_admin_has u by_whom d :
  In u (map Admins.user_id (admins (Sql.insert_or_ignore_admin u by_whom d))).
Proof.
  unfold Sql.insert_or_ignore_admin.
  destruct (existsb _ _) eqn:E.
  - apply existsb_exists in E as [a [Hin Ha]]. apply Z.eqb_eq in Ha.
    subst u. now apply in_map.
  - cbn. rewrite map_app, in_app_iff. right. now left.
Qed.

Lemma delete_admin_keeps u keep d :
  In keep (map Admins.user_id (admins d)) ->
  In keep (map Admins.user_id (admins (Sql.delete_admin u keep d))).
Proof.
  intros H. apply in_map_iff in H as [a [Ha Hin]]. cbn.
  apply in_map_iff. exists a. split; [exact Ha|].
  apply filter_In. split; [exact Hin|].
  rewrite Ha, Z.eqb_refl, andb_false_r. reflexivity.
Qed.

(** The handlers of the registry proper do not write to [admins]. *)
Lemma registry_handlers_keep_admins d u args :
  admins (fst (request_apartment_access d u args)) = admins d
  /\ admins (fst (approve_request d u args)) = admins d
  /\ admins (fst (reject_request d u args)) = admins d
  /\ admins (fst (delete_apartment d u)) = admins d
  /\ admins (fst (admin_unlink d u args)) = admins d
  /\ admins (fst (admin_delete_apartment d u args)) = admins d
  /\ admins (fst (clear_approval_requests d u)) = admins d
  /\ admins (fst (admin_assign d u args)) = admins d.
Proof.
  unfold request_apartment_access, approve_request, reject_request,
    delete_apartment, admin_unlink, admin_delete_apartment,
    clear_approval_requests, admin_assign, clear_pending_requests_from_db,
    Sql.delete_pending.
  repeat split; handler_cases; cbn; try reflexivity;
    match goal with
    | H : Sql.insert_apartment _ _ _ = Some _ |- _ =>
        apply insert_apartment_frame in H; cbn in H; tauto
    | H : (_, _) = (_, _) |- _ => injection H as <- <-; reflexivity
    end.
Qed.

Lemma dispatch_keeps_main_admin MAIN d c :
  In MAIN (map Admins.user_id (admins d)) ->
  In MAIN (map Admins.user_id (admins (fst (dispatch MAIN d c)))).
Proof.
  intros H. destruct c as [u args|u args|u args|u args|u|u args|u args|u
                           |u args|u args|u args|u data| |]; cbn [dispatch fst].
  - now rewrite (proj1 (registry_handlers_keep_admins d u args)).
  - now rewrite (proj1 (proj2 (registry_handlers_keep_admins d u args))).
  - now rewrite (proj1 (proj2 (proj2 (registry_handlers_keep_admins d u args)))).
  - unfold force_registration. handler_cases; exact H.
  - destruct (registry_handlers_keep_admins d u []) as (_&_&_&E&_). now rewrite E.
  - destruct (registry_handlers_keep_admins d u args) as (_&_&_&_&E&_). now rewrite E.
  - destruct (registry_handlers_keep_admins d u args) as (_&_&_&_&_&E&_). now rewrite E.
  - destruct (registry_handlers_keep_admins d u []) as (_&_&_&_&_&_&E&_). now rewrite E.
  - destruct (registry_handlers_keep_admins d u args) as (_&_&_&_&_&_&_&E). now rewrite E.
  - unfold add_admin. handler_cases; cbn [fst]; try exact H.
    now apply insert_or_ignore_admin_keeps.
  - unfold remove_admin. handler_cases; cbn [fst]; try exact H.
    now apply delete_admin_keeps.
  - unfold handle_admin_callback, clear_pending_requests_from_db, Sql.delete_pending.
    handler_cases; cbn [fst]; exact H.
  - now apply insert_or_ignore_admin_keeps.
  - exact H.
Qed.

Lemma run_keeps_main_admin MAIN cs :
  forall d, In MAIN (map Admins.user_id (admins d)) ->
            In MAIN (map Admins.user_id (admins (run MAIN d cs))).
Proof.
  unfold run. induction cs as [|c cs IH]; intros d H; cbn [fold_left].
  - exact H.
  - apply IH. now apply dispatch_keeps_main_admin.
Qed.

(** C8.  /removeadmin naming the main administrator is refused, whoever
    calls it and however the id is written, and the database is left as it
    was.  The main administrator is in [admins] once [create_db] has run,
    and stays there through every list of updates. *)
Theorem main_admin_never_removed :
  forall MAIN,
    (forall d caller a rest,
        int a = Some MAIN ->
        fst (remove_admin MAIN d caller (a :: rest)) = d
        /\ (snd (remove_admin MAIN d caller (a :: rest)) = MainAdminOnly
            \/ snd (remove_admin MAIN d caller (a :: rest)) = AskUserId
            \/ snd (remove_admin MAIN d caller (a :: rest)) = CannotRemoveMainAdmin)
        /\ (caller = MAIN -> isdigit a = true ->
            snd (remove_admin MAIN d caller (a :: rest)) = CannotRemoveMainAdmin))
    /\ (forall d, is_admin_user (create_db MAIN d) MAIN = true)
    /\ (forall d cs,
           is_admin_user d MAIN = true ->
           is_admin_user (run MAIN d cs) MAIN = true).
Proof.
  intros MAIN. split; [|split].
  - intros d caller a rest Hint. unfold remove_admin. rewrite Hint, Z.eqb_refl.
    destruct (Z.eqb_spec caller MAIN) as [Hc|Hc]; cbn [negb].
    + destruct (isdigit a); cbn [negb fst snd];
        (split; [reflexivity | split; [auto | intros _ E; first [reflexivity | discriminate E]]]).
    + cbn [fst snd]. split; [reflexivity | split; [auto | intros E; contradiction]].
  - intros d. apply is_admin_user_In. apply insert_or_ignore_admin_has.
  - intros d cs H. apply is_admin_user_In. apply run_keeps_main_admin.
    now apply is_admin_user_In.
Qed.

Lemma main_admin_never_removed_witness :
  remove_admin 1000 db_crowded 1000 ["1000"] = (db_crowded, CannotRemoveMainAdmin)
  /\ remove_admin 1000 db_crowded 7 ["1000"] = (db_crowded, MainAdminOnly)
  /\ remove_admin 1000 db_crowded 1000 ["7"]
     = (set_admins [Admins.mk 1000 None] db_crowded, AdminRemoved 7)
  /\ is_admin_user
       (run 1000 (create_db 1000 empty_db)
            [addadmin 1000 ["7"]; removeadmin 1000 ["1000"];
             removeadmin 7 ["1000"]; forceregistration 1000 ["2512"];
             removeadmin 1000 ["7"]])
       1000 = true.
Proof.
  split; [reflexivity|]. split; [reflexivity|]. split; [reflexivity|].
  apply (proj2 (proj2 (main_admin_never_removed 1000))).
  apply (proj1 (proj2 (main_admin_never_removed 1000))).
Defined.

(* ------------------------------------------------------------------ *)
(** ** Requests that have been decided *)

Lemma find_app_kept {A} (p : A -> bool) (l l' : list A) (x : A) :
  find p l = Some x -> find p (l ++ l') = Some x.
Proof.
  induction l as [|y l IH]; simpl; [discriminate|].
  destruct (p y); auto.
Qed.

Lemma find_filter_kept {A} (p f : A -> bool) (l : list A) (x : A) :
  find p l = Some x -> f x = true -> find p (filter f l) = Some x.
Proof.
  induction l as [|y l IH]; simpl; [discriminate|].
  destruct (p y) eqn:Hp.
  - intros H Hf. injection H as ->. rewrite Hf. simpl. now rewrite Hp.
  - intros H Hf. destruct (f y); simpl; [rewrite Hp|]; auto.
Qed.

Lemma find_map_kept {A} (p : A -> bool) (g : A -> A) (l : list A) (x : A) :
  (forall y, p (g y) = p y) ->
  find p l = Some x -> find p (map g l) = Some (g x).
Proof.
  intros Hg. induction l as [|y l IH]; simpl; [discriminate|].
  rewrite Hg. destruct (p y); [congruence | auto].
Qed.

Lemma status_of_found id d s :
  status_of id d = Some s ->
  exists q, find (fun q => Requests.id q =? id) (approval_requests d) = Some q
            /\ Requests.status q = s.
Proof.
  unfold status_of. destruct (find _ _) as [q|]; [|discriminate].
  intros H. injection H as <-. eauto.
Qed.

Lemma decided_not_pending q :
  Requests.status q <> pending -> Sql.is_pending q = false.
Proof.
  unfold Sql.is_pending. destruct (Requests.status q); [congruence| |]; reflexivity.
Qed.

Lemma status_kept_same d d' :
  approval_requests d' = approval_requests d -> status_kept d d'.
Proof. intros E id s H _. unfold status_of in *. now rewrite E. Qed.

Lemma status_kept_trans d1 d2 d3 :
  status_kept d1 d2 -> status_kept d2 d3 -> status_kept d1 d3.
Proof. intros H12 H23 id s H Hs. auto. Qed.

Lemma status_kept_insert_request n r a d :
  status_kept d (Sql.insert_request n r a d).
Proof.
  intros id s H _. apply status_of_found in H as [q [Hq <-]].
  unfold status_of. cbn. now rewrite (find_app_kept _ _ _ _ Hq).
Qed.

Lemma status_kept_update_approved r a d :
  status_kept d (Sql.update_approved r a d).
Proof.
  intros id s H Hs. apply status_of_found in H as [q [Hq <-]].
  unfold status_of. cbn. erewrite find_map_kept; [|  |exact Hq].
  - rewrite (decided_not_pending q Hs), andb_false_r. reflexivity.
  - intros y. now destruct (_ && _).
Qed.

Lemma status_kept_update_assigned actor n r d :
  status_kept d (Sql.update_assigned actor n r d).
Proof.
  intros id s H Hs. apply status_of_found in H as [q [Hq <-]].
  unfold status_of. cbn. erewrite find_map_kept; [|  |exact Hq].
  - rewrite (decided_not_pending q Hs), andb_false_r. reflexivity.
  - intros y. now destruct (_ && _).
Qed.

Lemma status_kept_delete_pending d :
  status_kept d (fst (Sql.delete_pending d)).
Proof.
  intros id s H Hs. apply status_of_found in H as [q [Hq <-]].
  unfold status_of. cbn. erewrite find_filter_kept; [reflexivity|exact Hq|].
  now rewrite (decided_not_pending q Hs).
Qed.

Create HintDb status.

#[local] Hint Resolve status_kept_insert_request status_kept_update_approved
  status_kept_update_assigned status_kept_delete_pending : status.

(** One leaf of a handler that is not the reset: the requests are the
    same, or changed by one of the statements above. *)
Ltac status_leaf :=
  cbn [fst snd];
  try match goal with
      | H : Sql.insert_apartment _ _ _ = Some _ |- _ =>
          apply insert_apartment_frame in H; destruct H as [_ H]; cbn in H
      end;
  split;
  [ intros _;
    first [ apply status_kept_same; first [reflexivity | assumption]
          | solve [auto with status]
          | eapply status_kept_trans;
            [apply status_kept_same; eassumption | solve [auto with status]] ]
  | intros E; discriminate E ].

Lemma cleared_reply_not_reset n : cleared_reply n <> DatabaseCleared.
Proof. unfold cleared_reply. destruct (n =? 0); discriminate. Qed.

(** Every update but /reject and the full reset leaves a decided request
    decided the same way: a request that is approved or rejected is still
    there with the status it had.  The full reset, which only the main
    administrator with the secret code gets, empties the table. *)
Theorem decided_requests_stay_decided :
  forall MAIN d c,
    (forall u args, c <> reject u args) ->
    (snd (dispatch MAIN d c) <> DatabaseCleared ->
     status_kept d (fst (dispatch MAIN d c)))
    /\ (snd (dispatch MAIN d c) = DatabaseCleared ->
        (exists rest, c = forceregistration MAIN (FORCE_REGISTRATION_CODE :: rest))
        /\ approval_requests (fst (dispatch MAIN d c)) = []).
Proof.
  intros MAIN d c Hc.
  destruct c as [u args|u args|u args|u args|u|u args|u args|u
                 |u args|u args|u args|u data| |]; cbn [dispatch].
  - unfold request_apartment_access. handler_cases; status_leaf.
  - unfold approve_request. handler_cases; status_leaf.
  - exfalso. now apply (Hc u args).
  - unfold force_registration.
    destruct (Z.eqb_spec u MAIN) as [->|Hu]; cbn [negb]; [|status_leaf].
    destruct args as [|a rest]; [status_leaf|].
    destruct (String.eqb_spec a FORCE_REGISTRATION_CODE) as [->|Ha];
      cbn [negb]; [|status_leaf].
    cbn [fst snd]. split; [intros H; now contradiction H|].
    intros _. split; [now exists rest | reflexivity].
  - unfold delete_apartment. handler_cases; status_leaf.
  - unfold admin_unlink. handler_cases; status_leaf.
  - unfold admin_delete_apartment. handler_cases; status_leaf.
  - unfold clear_approval_requests, clear_pending_requests_from_db.
    destruct (is_admin_user d u); cbn [negb]; [|status_leaf].
    pose proof (status_kept_delete_pending d) as H.
    destruct (Sql.delete_pending d) as [d' n]. cbn [fst snd] in *.
    split; [intros _; exact H|]. intros E. now apply cleared_reply_not_reset in E.
  - unfold admin_assign. handler_cases; status_leaf.
  - unfold add_admin, Sql.insert_or_ignore_admin. handler_cases; status_leaf.
  - unfold remove_admin. handler_cases; status_leaf.
  - unfold handle_admin_callback, clear_pending_requests_from_db.
    destruct (String.eqb data ""); [status_leaf|].
    destruct (String.eqb data "admin_clear_requests"); [|status_leaf].
    destruct (is_admin_user d u); cbn [negb]; [|status_leaf].
    pose proof (status_kept_delete_pending d) as H.
    destruct (Sql.delete_pending d) as [d' n]. cbn [fst snd] in *.
    split; [intros _; exact H|]. intros E. now apply cleared_reply_not_reset in E.
  - unfold create_db, Sql.insert_or_ignore_admin. handler_cases; status_leaf.
  - status_leaf.
Qed.

Lemma decided_requests_stay_decided_witness :
  (forall u args, approve 1 ["3"] <> reject u args)
  /\ status_of 1 db_crowded = Some approved
  /\ snd (dispatch 1000 (fst (dispatch 1000 db_crowded (deleteapartment 3)))
                   (approve 1 ["3"])) = AccessGranted 3 10
  /\ status_kept
       (fst (dispatch 1000 db_crowded (deleteapartment 3)))
       (fst (dispatch 1000 (fst (dispatch 1000 db_crowded (deleteapartment 3)))
                      (approve 1 ["3"]))).
Proof.
  split; [discriminate|]. split; [reflexivity|]. split; [reflexivity|].
  apply (proj1 (decided_requests_stay_decided
                  1000 (fst (dispatch 1000 db_crowded (deleteapartment 3)))
                  (approve 1 ["3"]) ltac:(discriminate))).
  discriminate.
Defined.

(** /reject by approver [a] for a requester [r] whose id is a 64-bit
    integer: without a pending request of [r] bound to [a] nothing changes
    and the reply is the not-found one; with one, every request of [r]
    bound to [a] becomes rejected, whatever its status was, every request
    that is not between the two is as it was, and the links and the
    administrators are untouched.  For an id outside the 64 bits the handler ends by the
    OverflowError, which nothing catches, and nothing changes. *)
Theorem reject_request_effect :
  forall d a r s rest,
    int s = Some r ->
    (sqlite_integer r = false ->
     reject_request d a (s :: rest) = (d, Raised OverflowError))
    /\
    (sqlite_integer r = true ->
     (~ has_pending r a d ->
        reject_request d a (s :: rest) = (d, RequestNotFound))
     /\
     (has_pending r a d ->
        apartments (fst (reject_request d a (s :: rest))) = apartments d
        /\ admins (fst (reject_request d a (s :: rest))) = admins d
        /\ (exists u, snd (reject_request d a (s :: rest)) = RequestRejected r u)
        /\ List.length (approval_requests (fst (reject_request d a (s :: rest))))
           = List.length (approval_requests d)
        /\ (forall i p,
               nth_error (approval_requests d) i = Some p ->
               (Requests.requesting_user_id p = r
                /\ Requests.approver_user_id p = a ->
                nth_error (approval_requests (fst (reject_request d a (s :: rest)))) i
                = Some (Requests.mk (Requests.id p) (Requests.apartment_number p)
                                    r a rejected))
               /\ (~ (Requests.requesting_user_id p = r
                      /\ Requests.approver_user_id p = a) ->
                   nth_error (approval_requests (fst (reject_request d a (s :: rest)))) i
                   = Some p)))).
Proof.
  intros d a r s rest Hint. unfold reject_request. rewrite Hint.
  split; [intros ->; reflexivity|]. intros ->. cbn [negb]. split.
  - intros H. apply pending_none in H. now rewrite H.
  - intros H. destruct (Sql.select_pending r a d) as [|u more] eqn:E.
    { apply pending_none in E. contradiction. }
    cbn [fetchone hd_error fst snd]. unfold Sql.update_rejected, set_approval_requests.
    cbn [apartments admins approval_requests].
    split; [reflexivity|]. split; [reflexivity|]. split; [eauto|].
    split; [apply length_map|].
    intros i p Hi. rewrite nth_error_map, Hi. cbn [option_map]. split.
    + intros [Hr Ha]. unfold Sql.between, Sql.set_status.
      now rewrite Hr, Ha, !Z.eqb_refl.
    + intros Hn. replace (Sql.between r a p) with false; [reflexivity|].
      symmetry. apply not_true_iff_false. intros Hb. apply Hn.
      unfold Sql.between in Hb. apply andb_true_iff in Hb as [Hr Ha].
      now apply Z.eqb_eq in Hr; apply Z.eqb_eq in Ha.
Qed.

Lemma reject_request_effect_witness :
  int "2" = Some 2
  /\ reject_request db_pending 1 ["2"]
     = (set_approval_requests [Requests.mk 1 10 2 1 rejected] db_pending,
        RequestRejected 2 10)
  /\ reject_request db_pending 1 ["9223372036854775808"]
     = (db_pending, Raised OverflowError)
  /\ (~ has_pending 2 7 db_pending ->
      reject_request db_pending 7 ["2"] = (db_pending, RequestNotFound)).
Proof.
  split; [reflexivity|]. split; [reflexivity|]. split; [reflexivity|].
  apply (proj1 (proj2 (reject_request_effect db_pending 7 2 "2" [] eq_refl) eq_refl)).
Defined.

(* ------------------------------------------------------------------ *)
(** ** Releasing a unit: /admindelete *)

(** /admindelete by an administrator for a number [u] of the two houses:
    when [u] has no link the reply says that it is free already and
    nothing changes; when it has links they are all removed, the links of
    other apartments are kept, and the reply lists the residents removed:
    each of them, by ascending id. *)
Theorem admin_delete_apartment_effect :
  forall d actor a rest u,
    is_admin_user d actor = true ->
    isdigit a = true -> int a = Some u -> is_valid_apartment u = true ->
    (~ occupied u d ->
       admin_delete_apartment d actor (a :: rest) = (d, AlreadyFree u))
    /\
    (occupied u d ->
       snd (admin_delete_apartment d actor (a :: rest))
       = ApartmentFreed u (Sql.select_residents u d)
       /\ StronglySorted Z.le (Sql.select_residents u d)
       /\ (forall x, In x (Sql.select_residents u d)
                     <-> exists l, In l (apartments d)
                                   /\ Apartments.apartment_number l = u
                                   /\ Apartments.user_id l = x)
       /\ ~ occupied u (fst (admin_delete_apartment d actor (a :: rest)))
       /\ (forall l,
              In l (apartments (fst (admin_delete_apartment d actor (a :: rest))))
              <-> In l (apartments d) /\ Apartments.apartment_number l <> u)
       /\ approval_requests (fst (admin_delete_apartment d actor (a :: rest)))
          = approval_requests d).
Proof.
  intros d actor a rest u Hadm Hd Hint Hok. unfold admin_delete_apartment.
  rewrite Hadm, Hd, Hint, Hok. cbn [negb]. split.
  - intros H. apply residents_none in H. now rewrite H.
  - intros H. split; [|split; [apply residents_sorted|
                               split; [apply residents_In|]]];
      destruct (Sql.select_residents u d) as [|x xs] eqn:E;
      try (apply residents_none in E; contradiction);
      cbn [fst snd]; [reflexivity|].
    assert (Hkeep : forall l,
               In l (apartments (Sql.delete_apartment_number u d))
               <-> In l (apartments d) /\ Apartments.apartment_number l <> u).
    { intros l. cbn. rewrite filter_In_neg. unfold Sql.in_apartment.
      rewrite Z.eqb_neq. reflexivity. }
    split; [|split; [exact Hkeep | reflexivity]].
    intros [l [Hin Hn]]. apply Hkeep in Hin. tauto.
Qed.

Lemma admin_delete_apartment_effect_witness :
  is_admin_user db_later_neighbour 7 = true
  /\ isdigit "10" = true /\ int "10" = Some 10 /\ is_valid_apartment 10 = true
  /\ apartments db_later_neighbour
     = [Apartments.mk 1 10 5; Apartments.mk 2 10 2]
  /\ admin_delete_apartment db_later_neighbour 7 ["10"]
     = (set_apartments [] db_later_neighbour, ApartmentFreed 10 [2; 5])
  /\ (~ occupied 11 db_later_neighbour ->
      admin_delete_apartment db_later_neighbour 7 ["11"]
      = (db_later_neighbour, AlreadyFree 11))
  /\ (occupied 10 db_later_neighbour ->
      snd (admin_delete_apartment db_later_neighbour 7 ["10"])
      = ApartmentFreed 10 (Sql.select_residents 10 db_later_neighbour)).
Proof.
  split; [reflexivity|]. split; [reflexivity|]. split; [reflexivity|].
  split; [reflexivity|]. split; [reflexivity|]. split; [reflexivity|].
  split.
  - apply (proj1 (admin_delete_apartment_effect db_later_neighbour 7 "11" [] 11
                    eq_refl eq_refl eq_refl eq_refl)).
  - intros H.
    apply (proj1 (proj2 (admin_delete_apartment_effect
                           db_later_neighbour 7 "10" [] 10
                           eq_refl eq_refl eq_refl eq_refl) H)).
Defined.

(* ------------------------------------------------------------------ *)
(** ** Unlinking a user: /adminunlink *)



(* ------------------------------------------------------------------ *)
(** ** Numbers written and read back *)

Lemma int_digits_of_uint l :
  forall acc after_digit,
    after_digit = true \/ l <> Decimal.Nil ->
    int_digits acc after_digit (NilEmpty.string_of_uint l) = Some (uint_value l acc).
Proof.
  induction l; intros acc b H; cbn [NilEmpty.string_of_uint int_digits uint_value];
    try (replace (is_ascii_digit _) with true by reflexivity; cbv iota;
         rewrite IHl by (now left); f_equal; f_equal;
         unfold digit_value; cbn [nat_of_ascii]; vm_compute (Z.of_nat _ - 48); lia).
  destruct H as [-> | H]; [reflexivity | congruence].
Qed.

Lemma uint_value_acc l :
  forall acc, uint_value l (Zpos acc) = Zpos (Pos.of_uint_acc l acc).
Proof.
  induction l; intros acc; cbn [uint_value Pos.of_uint_acc]; [reflexivity| ..];
    match goal with
    | |- uint_value _ ?z = _ =>
        match goal with
        | |- _ = Zpos (Pos.of_uint_acc _ ?p) =>
            replace z with (Zpos p) by lia; apply IHl
        end
    end.
Qed.

Lemma uint_value_0 l : uint_value l 0 = Z.of_N (Pos.of_uint l).
Proof.
  induction l; cbn [uint_value Pos.of_uint]; try reflexivity;
    first [ exact IHl | apply (uint_value_acc l) ].
Qed.

Lemma string_of_uint_digits l : all_digits (NilEmpty.string_of_uint l) = true.
Proof. induction l; cbn; auto. Qed.

Lemma string_of_uint_nonempty l :
  l <> Decimal.Nil ->
  exists c rest, NilEmpty.string_of_uint l = String c rest /\ is_ascii_digit c = true.
Proof. destruct l; intros H; [congruence| ..]; cbn; eauto. Qed.

Lemma str_pos p :
  str (Zpos p) = NilEmpty.string_of_uint (Pos.to_uint p).
Proof.
  unfold str, NilZero.string_of_int, NilZero.string_of_uint. cbn [Z.to_int].
  pose proof (DecimalPos.Unsigned.to_uint_nonnil p) as H.
  destruct (Pos.to_uint p); [congruence| ..]; reflexivity.
Qed.

Lemma int_string_of_pos p :
  int_digits 0 false (NilEmpty.string_of_uint (Pos.to_uint p)) = Some (Zpos p).
Proof.
  rewrite int_digits_of_uint by (right; apply DecimalPos.Unsigned.to_uint_nonnil).
  now rewrite uint_value_0, DecimalPos.Unsigned.of_to.
Qed.

Lemma int_str_facts n :
  int (str n) = Some n /\ (isdigit (str n) = true <-> 0 <= n).
Proof.
  destruct n as [|p|p].
  - split; [reflexivity|]. split; [lia | reflexivity].
  - rewrite str_pos.
    destruct (string_of_uint_nonempty (Pos.to_uint p)
                (DecimalPos.Unsigned.to_uint_nonnil p)) as [c [rest [E Hc]]].
    split.
    + rewrite E, (int_unsigned c rest Hc), <- E. apply int_string_of_pos.
    + split; [lia|]. intros _.
      pose proof (string_of_uint_digits (Pos.to_uint p)) as Hd.
      rewrite E in *. exact Hd.
  - assert (E : str (Zneg p)
                = String "-" (NilEmpty.string_of_uint (Pos.to_uint p))).
    { unfold str, NilZero.string_of_int, NilZero.string_of_uint. cbn [Z.to_int].
      pose proof (DecimalPos.Unsigned.to_uint_nonnil p) as H.
      destruct (Pos.to_uint p); [congruence| ..]; reflexivity. }
    rewrite E. split.
    + cbn [int]. now rewrite int_string_of_pos.
    + split; [discriminate | lia].
Qed.

Lemma int_str n : int (str n) = Some n.
Proof. apply int_str_facts. Qed.

(** Python's [int(str(n)) == n], and [str(n).isdigit()] exactly for the
    naturals: the number in "/approve <id>" and "/reject <id>", which the
    request notice spells out with [str], is read back by [int] as the id
    that was written. *)
Theorem int_str_round_trip :
  forall n, int (str n) = Some n /\ (isdigit (str n) = true <-> 0 <= n).
Proof.
  intros n. split.
  - apply int_str.
  - apply (int_str_facts n).
Qed.

(* ------------------------------------------------------------------ *)
(** ** Names in Markdown *)

Lemma remove_char_filter c s :
  list_ascii_of_string (remove_char c s)
  = filter (fun x => negb (Ascii.eqb x c)) (list_ascii_of_string s).
Proof.
  induction s as [|x rest IH]; cbn; [reflexivity|].
  destruct (Ascii.eqb x c); cbn; now rewrite IH.
Qed.

Lemma filter_filter {A} (f g : A -> bool) (l : list A) :
  filter f (filter g l) = filter (fun x => g x && f x) l.
Proof.
  induction l as [|x l IH]; cbn; [reflexivity|].
  destruct (g x); cbn; [destruct (f x)|]; now rewrite IH.
Qed.

Lemma same_chars a b :
  list_ascii_of_string a = list_ascii_of_string b -> a = b.
Proof.
  intros E. rewrite <- (string_of_list_ascii_of_string a),
                    <- (string_of_list_ascii_of_string b). now rewrite E.
Qed.

Lemma sanitize_markdown_chars text :
  list_ascii_of_string (sanitize_markdown text)
  = filter (fun c => negb (markdown_special c)) (list_ascii_of_string text).
Proof.
  destruct text as [|x rest]; [reflexivity|].
  unfold sanitize_markdown. rewrite !remove_char_filter, !filter_filter.
  apply filter_ext. intros c. unfold markdown_special. cbn [existsb].
  rewrite orb_false_r, !negb_orb, !andb_assoc. reflexivity.
Qed.

(** [sanitize_markdown] takes out exactly the characters [ ] ( ) _ * and
    keeps every other character, in order; nothing it returns holds one of
    the six, and cleaning a cleaned text changes nothing. *)
Theorem sanitize_markdown_removes_specials :
  forall text,
    list_ascii_of_string (sanitize_markdown text)
    = filter (fun c => negb (markdown_special c)) (list_ascii_of_string text)
    /\ (forall c, In c (list_ascii_of_string (sanitize_markdown text)) ->
                  markdown_special c = false)
    /\ sanitize_markdown (sanitize_markdown text) = sanitize_markdown text.
Proof.
  intros text. split; [apply sanitize_markdown_chars|]. split.
  - intros c H. rewrite sanitize_markdown_chars in H.
    apply filter_In in H as [_ H]. now apply negb_true_iff.
  - apply same_chars.
    rewrite (sanitize_markdown_chars (sanitize_markdown text)).
    rewrite sanitize_markdown_chars, filter_filter.
    apply filter_ext. intros c. apply andb_diag.
Qed.

Lemma sanitize_markdown_removes_specials_witness :
  sanitize_markdown "a[b](c)_d*e" = "abcde"
  /\ sanitize_markdown (sanitize_markdown "a[b](c)_d*e")
     = sanitize_markdown "a[b](c)_d*e".
Proof.
  split; [reflexivity|].
  apply (proj2 (proj2 (sanitize_markdown_removes_specials "a[b](c)_d*e"))).
Defined.



(* ------------------------------------------------------------------ *)
(** ** Exceptions *)

Lemma fetchone_none {A} (l : list A) : fetchone l = None -> l = [].
Proof. destruct l; [reflexivity | discriminate]. Qed.

Lemma insert_after_deletes n x d :
  Sql.insert_apartment n x
    (Sql.delete_user_links x (Sql.delete_apartment_number n d)) <> None.
Proof.
  rewrite insert_apartment_vacant by apply residents_after_deletes.
  discriminate.
Qed.

(** Closes the leaves of a handler that would need a conflict the tests
    before the insert exclude. *)
Ltac no_conflict :=
  cbn [snd]; try discriminate;
  repeat match goal with
         | H : negb _ = false |- _ => apply negb_false_iff in H
         | H : fetchone _ = None |- _ => apply fetchone_none in H
         end;
  try match goal with
      | H : Sql.select_residents ?n ?d = [], E : Sql.insert_apartment ?n _ ?d = None |- _ =>
          rewrite (insert_apartment_vacant n _ d H) in E; discriminate E
      | H : Sql.select_apartments_of ?u ?d = [], E : Sql.insert_apartment _ ?u ?d = None |- _ =>
          rewrite (insert_apartment_homeless _ u d H) in E; discriminate E
      | E : Sql.insert_apartment _ _ (Sql.delete_user_links _ _) = None |- _ =>
          exfalso; exact (insert_after_deletes _ _ _ E)
      end.

Lemma handlers_never_conflict MAIN d u args :
  snd (request_apartment_access d u args) <> Raised IntegrityError
  /\ snd (approve_request d u args) <> Raised IntegrityError
  /\ snd (approve_request d u args) <> AlreadyLinkedHere
  /\ snd (reject_request d u args) <> Raised IntegrityError
  /\ snd (reject_request d u args) <> AlreadyLinkedHere
  /\ snd (force_registration MAIN d u args) <> Raised IntegrityError
  /\ snd (delete_apartment d u) <> Raised IntegrityError
  /\ snd (admin_unlink d u args) <> Raised IntegrityError
  /\ snd (admin_delete_apartment d u args) <> Raised IntegrityError
  /\ snd (clear_approval_requests d u) <> Raised IntegrityError
  /\ snd (admin_assign d u args) <> Raised IntegrityError
  /\ snd (add_admin MAIN d u args) <> Raised IntegrityError
  /\ snd (remove_admin MAIN d u args) <> Raised IntegrityError.
Proof.
  unfold request_apartment_access, approve_request, reject_request,
    force_registration, delete_apartment, admin_unlink,
    admin_delete_apartment, clear_approval_requests, admin_assign, add_admin,
    remove_admin, cleared_reply, clear_pending_requests_from_db,
    Sql.delete_pending.
  repeat split; handler_cases; no_conflict.
Qed.

(** No insert ever breaks the uniqueness of (apartment, user): whatever
    the command and the database, no handler ends by the IntegrityError,
    and /approve never gives the reply it keeps for it.  A first argument
    that is a word of ASCII and that [int] cannot read ends /reject by the
    ValueError, which nothing there catches, while /approve catches it and
    answers with the processing error; neither changes the database. *)
Theorem inserts_never_conflict :
  forall MAIN d,
    (forall c,
        snd (dispatch MAIN d c) <> Raised IntegrityError
        /\ snd (dispatch MAIN d c) <> AlreadyLinkedHere)
    /\ (forall u a rest,
           ascii_word a = true -> int a = None ->
           dispatch MAIN d (reject u (a :: rest)) = (d, Raised ValueError)
           /\ dispatch MAIN d (approve u (a :: rest)) = (d, ProcessingError)).
Proof.
  intros MAIN d. split.
  - intros c.
    destruct c as [u args|u args|u args|u args|u|u args|u args|u
                   |u args|u args|u args|u data| |]; cbn [dispatch];
      try solve [ split; apply (handlers_never_conflict MAIN d u args) ];
      try solve [ split; [apply (handlers_never_conflict MAIN d u [])|];
                  unfold delete_apartment, clear_approval_requests,
                    cleared_reply, clear_pending_requests_from_db,
                    Sql.delete_pending;
                  handler_cases; cbn [snd]; discriminate ];
      unfold request_apartment_access, force_registration,
        admin_unlink, admin_delete_apartment, admin_assign, add_admin,
        remove_admin, handle_admin_callback, cleared_reply,
        clear_pending_requests_from_db, Sql.delete_pending;
      (split; [try apply (handlers_never_conflict MAIN d u args)|]);
      handler_cases; no_conflict.
  - intros u a rest _ E. cbn [dispatch].
    unfold reject_request, approve_request. now rewrite E.
Qed.

Lemma inserts_never_conflict_witness :
  ascii_word "two" = true /\ int "two" = None
  /\ dispatch 1000 db_pending (reject 1 ["two"]) = (db_pending, Raised ValueError)
  /\ dispatch 1000 db_pending (approve 1 ["two"]) = (db_pending, ProcessingError)
  /\ snd (dispatch 1000 db_pending (approve 1 ["2"])) <> AlreadyLinkedHere.
Proof.
  split; [reflexivity|]. split; [reflexivity|]. split; [|split].
  - apply (proj2 (inserts_never_conflict 1000 db_pending) 1 "two" []);
      reflexivity.
  - apply (proj2 (inserts_never_conflict 1000 db_pending) 1 "two" []);
      reflexivity.
  - apply (proj1 (inserts_never_conflict 1000 db_pending) (approve 1 ["2"])).
Defined.

(* ------------------------------------------------------------------ *)
(** ** Who can change what *)

Lemma is_admin_user_false_negb d u :
  is_admin_user d u = false -> negb (is_admin_user d u) = true.
Proof. intros ->. reflexivity. Qed.

Lemma insert_apartment_keeps n u d d' l :
  Sql.insert_apartment n u d = Some d' -> In l (apartments d) -> In l (apartments d').
Proof.
  unfold Sql.insert_apartment. destruct (existsb _ _); [discriminate|].
  intros H. injection H as <-. cbn. intros Hin. apply in_or_app. now left.
Qed.

(** A link is taken away only by its owner or by an administrator: an
    update sent by a user who is neither an administrator nor the main
    administrator leaves every link of every other user in place. *)
Theorem links_removed_only_by_owner_or_admin :
  forall MAIN d c u l,
    issuer c = Some u ->
    is_admin_user d u = false -> u <> MAIN ->
    In l (apartments d) -> Apartments.user_id l <> u ->
    In l (apartments (fst (dispatch MAIN d c))).
Proof.
  intros MAIN d c u l Hc Hadm Hmain Hin Hl.
  pose proof (is_admin_user_false_negb d u Hadm) as Hneg.
  apply Z.eqb_neq in Hmain.
  destruct c as [v args|v args|v args|v args|v|v args|v args|v
                 |v args|v args|v args|v data| |]; cbn [issuer] in Hc;
    try discriminate; injection Hc as ->; cbn [dispatch].
  - unfold request_apartment_access. handler_cases; cbn [fst]; auto.
    eapply insert_apartment_keeps; eauto.
  - unfold approve_request. handler_cases; cbn [fst]; auto.
    cbn. eapply insert_apartment_keeps; eauto.
  - unfold reject_request. handler_cases; cbn [fst]; auto.
  - unfold force_registration. rewrite Hmain. exact Hin.
  - unfold delete_apartment. handler_cases; cbn [fst]; auto.
    cbn. apply filter_In_neg. split; [exact Hin|].
    unfold Sql.of_user. now apply Z.eqb_neq.
  - unfold admin_unlink. now rewrite Hneg.
  - unfold admin_delete_apartment. now rewrite Hneg.
  - unfold clear_approval_requests. now rewrite Hneg.
  - unfold admin_assign. now rewrite Hneg.
  - unfold add_admin. rewrite Hmain. exact Hin.
  - unfold remove_admin. rewrite Hmain. exact Hin.
  - unfold handle_admin_callback. rewrite Hneg.
    handler_cases; exact Hin.
Qed.

Lemma links_removed_only_by_owner_or_admin_witness :
  issuer (deleteapartment 2) = Some 2
  /\ is_admin_user db_crowded 2 = false /\ 2 <> 1000
  /\ In (Apartments.mk 3 30 3) (apartments db_crowded)
  /\ Apartments.user_id (Apartments.mk 3 30 3) <> 2
  /\ In (Apartments.mk 3 30 3)
        (apartments (fst (dispatch 1000 db_crowded (deleteapartment 2)))).
Proof.
  assert (H : In (Apartments.mk 3 30 3) (apartments db_crowded))
    by (right; right; left; reflexivity).
  split; [reflexivity|]. split; [reflexivity|]. split; [discriminate|].
  split; [exact H|]. split; [discriminate|].
  apply (links_removed_only_by_owner_or_admin
           1000 db_crowded (deleteapartment 2) 2 (Apartments.mk 3 30 3));
    [reflexivity | reflexivity | discriminate | exact H | discriminate].
Defined.

(** The table of administrators changes only by /addadmin and
    /removeadmin sent by the main administrator, and by the seeding at
    start-up: every other update, and those two from anybody else, leave
    it as it was. *)
Theorem admins_changed_only_by_main_admin :
  forall MAIN d c,
    admins (fst (dispatch MAIN d c)) <> admins d ->
    c = restart
    \/ exists args, c = addadmin MAIN args \/ c = removeadmin MAIN args.
Proof.
  intros MAIN d c H.
  destruct c as [u args|u args|u args|u args|u|u args|u args|u
                 |u args|u args|u args|u data| |]; cbn [dispatch] in H;
    try (exfalso; apply H; clear H;
         solve [ apply (registry_handlers_keep_admins d u args)
               | apply (registry_handlers_keep_admins d u [])
               | reflexivity ]).
  - exfalso. apply H. unfold force_registration. handler_cases; reflexivity.
  - right. exists args. left.
    destruct (Z.eqb_spec u MAIN) as [->|Hu]; [reflexivity|].
    exfalso. apply H. unfold add_admin.
    apply Z.eqb_neq in Hu. now rewrite Hu.
  - right. exists args. right.
    destruct (Z.eqb_spec u MAIN) as [->|Hu]; [reflexivity|].
    exfalso. apply H. unfold remove_admin.
    apply Z.eqb_neq in Hu. now rewrite Hu.
  - exfalso. apply H.
    unfold handle_admin_callback, clear_pending_requests_from_db, Sql.delete_pending.
    handler_cases; reflexivity.
  - now left.
Qed.

Lemma admins_changed_only_by_main_admin_witness :
  admins (fst (dispatch 1000 db_crowded (removeadmin 1000 ["7"])))
  <> admins db_crowded
  /\ admins (fst (dispatch 1000 db_crowded (removeadmin 7 ["7"])))
     = admins db_crowded
  /\ (removeadmin 1000 ["7"] = restart
      \/ exists args, removeadmin 1000 ["7"] = addadmin 1000 args
                      \/ removeadmin 1000 ["7"] = removeadmin 1000 args).
Proof.
  assert (H : admins (fst (dispatch 1000 db_crowded (removeadmin 1000 ["7"])))
              <> admins db_crowded) by (vm_compute; discriminate).
  split; [exact H|]. split; [reflexivity|].
  apply (admins_changed_only_by_main_admin 1000 db_crowded
           (removeadmin 1000 ["7"]) H).
Defined.

(* ------------------------------------------------------------------ *)
(** ** Adding and removing administrators: /addadmin, /removeadmin *)

Lemma is_admin_user_existsb d u :
  is_admin_user d u = existsb (fun a => Admins.user_id a =? u) (admins d).
Proof.
  unfold is_admin_user, Sql.select_admin, fetchone.
  induction (admins d) as [|a l IH]; cbn; [reflexivity|].
  destruct (Admins.user_id a =? u); cbn; auto.
Qed.

Lemma filter_all {A} (f : A -> bool) (l : list A) :
  (forall x, In x l -> f x = true) -> filter f l = l.
Proof.
  induction l as [|x l IH]; cbn; intros H; [reflexivity|].
  rewrite (H x (or_introl eq_refl)), IH; auto.
Qed.

Lemma set_admins_same d : set_admins (admins d) d = d.
Proof. now destruct d. Qed.

(** /addadmin by the main administrator with a digit string naming an
    [x] that SQLite can hold: afterwards [x] is an administrator and so is
    everyone who was; when [x] was one already nothing changes, the row
    and its [added_by] included; otherwise one row, added by the main
    administrator, is appended.  An [x] that SQLite cannot hold leaves
    the handler as OverflowError with nothing changed.  Anybody else is
    refused and nothing changes. *)
Theorem add_admin_effect :
  forall MAIN d a rest x,
    isdigit a = true -> int a = Some x ->
    (sqlite_integer x = false ->
     add_admin MAIN d MAIN (a :: rest) = (d, Raised OverflowError))
    /\ (sqlite_integer x = true ->
        snd (add_admin MAIN d MAIN (a :: rest)) = AdminAdded x
        /\ is_admin_user (fst (add_admin MAIN d MAIN (a :: rest))) x = true
        /\ (forall y, is_admin_user d y = true ->
                      is_admin_user (fst (add_admin MAIN d MAIN (a :: rest))) y
                      = true)
        /\ (is_admin_user d x = true ->
            fst (add_admin MAIN d MAIN (a :: rest)) = d)
        /\ (is_admin_user d x = false ->
            admins (fst (add_admin MAIN d MAIN (a :: rest)))
            = admins d ++ [Admins.mk x (Some MAIN)]))
    /\ (forall caller, caller <> MAIN ->
                       add_admin MAIN d caller (a :: rest) = (d, MainAdminOnly)).
Proof.
  intros MAIN d a rest x Hd Hint. unfold add_admin.
  rewrite Z.eqb_refl, Hd, Hint. cbn [negb fst].
  split; [|split].
  - intros Hx. now rewrite Hx.
  - intros Hx. rewrite Hx. cbn [negb fst snd].
    split; [reflexivity|]. split; [|split; [|split]].
    + apply is_admin_user_In, insert_or_ignore_admin_has.
    + intros y Hy. apply is_admin_user_In, insert_or_ignore_admin_keeps.
      now apply is_admin_user_In.
    + intros H. rewrite is_admin_user_existsb in H.
      unfold Sql.insert_or_ignore_admin. now rewrite H.
    + intros H. rewrite is_admin_user_existsb in H.
      unfold Sql.insert_or_ignore_admin. now rewrite H.
  - intros caller Hc. apply Z.eqb_neq in Hc. now rewrite Hc.
Qed.

Lemma add_admin_effect_witness :
  isdigit "8" = true /\ int "8" = Some 8 /\ sqlite_integer 8 = true
  /\ add_admin 1000 db_crowded 1000 ["8"]
     = (set_admins [Admins.mk 1000 None; Admins.mk 7 (Some 1000);
                    Admins.mk 8 (Some 1000)] db_crowded,
        AdminAdded 8)
  /\ add_admin 1000 db_crowded 1000 ["7"] = (db_crowded, AdminAdded 7)
  /\ add_admin 1000 db_crowded 1000 ["9223372036854775808"]
     = (db_crowded, Raised OverflowError)
  /\ is_admin_user (fst (add_admin 1000 db_crowded 1000 ["8"])) 8 = true.
Proof.
  split; [reflexivity|]. split; [reflexivity|]. split; [reflexivity|].
  split; [reflexivity|]. split; [reflexivity|]. split; [reflexivity|].
  apply (proj1 (proj2 (proj1 (proj2 (add_admin_effect 1000 db_crowded "8" [] 8
                                       eq_refl eq_refl)) eq_refl))).
Defined.

Lemma delete_admin_rows u keep d a :
  u <> keep ->
  In a (admins (Sql.delete_admin u keep d))
  <-> In a (admins d) /\ Admins.user_id a <> u.
Proof.
  intros Hk. cbn. rewrite filter_In, negb_true_iff, andb_false_iff,
                    negb_false_iff, Z.eqb_neq, Z.eqb_eq.
  split; [|tauto]. intros [Hin [H|H]]; split; auto. congruence.
Qed.

(** /removeadmin by the main administrator with a digit string naming an
    [x] other than the main administrator that SQLite can hold:
    afterwards [x] is no administrator and everybody else is one exactly
    when they were; the reply is the one of a removal even when [x] was no
    administrator, and then nothing changes.  Removing an administrator
    that /addadmin has just added gives back the database from before.
    An [x] that SQLite cannot hold leaves the handler as OverflowError
    with nothing changed. *)
Theorem remove_admin_effect :
  forall MAIN d a rest x,
    isdigit a = true -> int a = Some x -> x <> MAIN ->
    (sqlite_integer x = false ->
     remove_admin MAIN d MAIN (a :: rest) = (d, Raised OverflowError))
    /\ (sqlite_integer x = true ->
        is_admin_user (fst (remove_admin MAIN d MAIN (a :: rest))) x = false
        /\ (forall y, y <> x ->
                      is_admin_user (fst (remove_admin MAIN d MAIN (a :: rest))) y
                      = is_admin_user d y)
        /\ snd (remove_admin MAIN d MAIN (a :: rest)) = AdminRemoved x
        /\ (is_admin_user d x = false ->
            fst (remove_admin MAIN d MAIN (a :: rest)) = d
            /\ fst (remove_admin MAIN (fst (add_admin MAIN d MAIN (a :: rest)))
                                 MAIN (a :: rest)) = d)).
Proof.
  intros MAIN d a rest x Hd Hint Hx. split.
  { intros Hs. unfold remove_admin. rewrite Z.eqb_refl, Hd, Hint. cbn [negb].
    apply Z.eqb_neq in Hx. now rewrite Hx, Hs. }
  intros Hs.
  assert (Hrm : forall d0, remove_admin MAIN d0 MAIN (a :: rest)
                           = (Sql.delete_admin x MAIN d0, AdminRemoved x)).
  { intros d0. unfold remove_admin. rewrite Z.eqb_refl, Hd, Hint. cbn [negb].
    apply Z.eqb_neq in Hx. now rewrite Hx, Hs. }
  assert (Hnone : forall d0,
             is_admin_user d0 x = false -> Sql.delete_admin x MAIN d0 = d0).
  { intros d0 H. rewrite is_admin_user_existsb in H.
    unfold Sql.delete_admin. rewrite filter_all; [apply set_admins_same|].
    intros r Hr. destruct (Z.eqb_spec (Admins.user_id r) x) as [E|E]; [|reflexivity].
    exfalso. apply not_true_iff_false in H. apply H.
    apply existsb_exists. exists r. split; [exact Hr|]. now apply Z.eqb_eq. }
  rewrite !Hrm. cbn [fst snd]. split; [|split; [|split; [reflexivity|]]].
  - apply not_true_iff_false. intros H. apply is_admin_user_In in H.
    apply in_map_iff in H as [r [Hr Hin]].
    apply delete_admin_rows in Hin; [|exact Hx]. tauto.
  - intros y Hy.
    destruct (is_admin_user d y) eqn:E.
    + apply is_admin_user_In. apply is_admin_user_In in E.
      apply in_map_iff in E as [r [Hr Hin]]. apply in_map_iff. exists r.
      split; [exact Hr|]. apply delete_admin_rows; [exact Hx|]. split; congruence.
    + apply not_true_iff_false. intros H. apply not_true_iff_false in E. apply E.
      apply is_admin_user_In. apply is_admin_user_In in H.
      apply in_map_iff in H as [r [Hr Hin]]. apply in_map_iff. exists r.
      split; [exact Hr|]. now apply delete_admin_rows in Hin.
  - intros H. split; [now apply Hnone|].
    unfold add_admin. rewrite Z.eqb_refl, Hd, Hint, Hs. cbn [negb fst].
    pose proof H as H'. rewrite is_admin_user_existsb in H'.
    unfold Sql.insert_or_ignore_admin. rewrite H'.
    unfold Sql.delete_admin. cbn [admins set_admins].
    rewrite filter_app. cbn [filter Admins.user_id].
    rewrite Z.eqb_refl. apply Z.eqb_neq in Hx. rewrite Hx. cbn [negb andb].
    rewrite app_nil_r.
    specialize (Hnone d H). unfold Sql.delete_admin in Hnone.
    assert (Hf : filter (fun r => negb ((Admins.user_id r =? x)
                                        && negb (Admins.user_id r =? MAIN)))
                        (admins d) = admins d).
    { apply (f_equal admins) in Hnone. exact Hnone. }
    rewrite Hf. now destruct d.
Qed.

Lemma remove_admin_effect_witness :
  isdigit "8" = true /\ int "8" = Some 8 /\ 8 <> 1000
  /\ sqlite_integer 8 = true
  /\ remove_admin 1000 db_crowded 1000 ["8"] = (db_crowded, AdminRemoved 8)
  /\ remove_admin 1000 db_crowded 1000 ["9223372036854775808"]
     = (db_crowded, Raised OverflowError)
  /\ is_admin_user (fst (remove_admin 1000 db_crowded 1000 ["7"])) 7 = false
  /\ is_admin_user (fst (remove_admin 1000 db_crowded 1000 ["8"])) 8 = false.
Proof.
  split; [reflexivity|]. split; [reflexivity|]. split; [discriminate|].
  split; [reflexivity|]. split; [reflexivity|]. split; [reflexivity|].
  split; [reflexivity|].
  apply (proj1 (proj2 (remove_admin_effect 1000 db_crowded "8" [] 8
                         eq_refl eq_refl ltac:(discriminate)) eq_refl)).
Defined.

(* ------------------------------------------------------------------ *)
(** ** The workflow, step after step *)

Lemma map_unchanged {A} (g : A -> A) (l : list A) :
  (forall x, In x l -> g x = x) -> map g l = l.
Proof.
  induction l as [|x l IH]; cbn; intros H; [reflexivity|].
  rewrite (H x (or_introl eq_refl)), IH; auto.
Qed.

Lemma no_pending_filter r a d :
  ~ has_pending r a d ->
  forall q, In q (approval_requests d) ->
            Sql.between r a q && Sql.is_pending q = false.
Proof.
  intros H. apply pending_none in H. unfold Sql.select_pending in H.
  apply map_nil_inv in H. now rewrite filter_nil_none in H.
Qed.

Lemma request_on_occupied d r a u first others :
  isdigit a = true -> int a = Some u -> is_valid_apartment u = true ->
  Sql.select_residents u d = first :: others ->
  request_apartment_access d r [a]
  = (Sql.insert_request u r first d, AccessRequested r first u).
Proof.
  intros Hd Hint Hok Hres. unfold request_apartment_access.
  now rewrite Hd, Hint, Hok, Hres.
Qed.

Lemma request_on_vacant d r a u :
  isdigit a = true -> int a = Some u -> is_valid_apartment u = true ->
  ~ occupied u d ->
  request_apartment_access d r [a]
  = (mkdb (apartments d ++ [Apartments.mk (Sql.next_apartment_id d) u r])
          (admins d) (approval_requests d)
          (Sql.next_apartment_id d) (approval_requests_seq d),
     Linked r u).
Proof.
  intros Hd Hint Hok Hfree. apply residents_none in Hfree.
  unfold request_apartment_access.
  now rewrite Hd, Hint, Hok, Hfree, (insert_apartment_vacant u r d Hfree).
Qed.

(** A claim and its approval, end to end.  A user [r], whose id SQLite
    can hold, has no link and asks for an occupied apartment [u]; the
    first resident found, [first], the one of the smallest id, has no
    pending request of [r] yet.  When [first] then sends the command the
    notice spells out, "/approve" with the id of [r] written by [str], the
    access is granted: the links are those from before and (u, r), and the
    requests are those from before and the new one, approved. *)
Theorem claim_then_approve :
  forall d r a u first others,
    isdigit a = true -> int a = Some u -> is_valid_apartment u = true ->
    sqlite_integer r = true ->
    Sql.select_residents u d = first :: others ->
    ~ holds_link r d -> ~ has_pending r first d ->
    snd (approve_request (fst (request_apartment_access d r [a])) first [str r])
    = AccessGranted r u
    /\ apartments
         (fst (approve_request (fst (request_apartment_access d r [a]))
                               first [str r]))
       = apartments d ++ [Apartments.mk (Sql.next_apartment_id d) u r]
    /\ approval_requests
         (fst (approve_request (fst (request_apartment_access d r [a]))
                               first [str r]))
       = approval_requests d
         ++ [Requests.mk (Sql.next_request_id d) u r first approved].
Proof.
  intros d r a u first others Hd Hint Hok Hs Hres Hlink Hpend.
  rewrite (request_on_occupied d r a u first others Hd Hint Hok Hres).
  cbn [fst]. unfold approve_request. rewrite int_str, Hs. cbn [negb].
  pose proof (no_pending_filter r first d Hpend) as Hnone.
  assert (Hsel : Sql.select_pending r first (Sql.insert_request u r first d) = [u]).
  { unfold Sql.select_pending. cbn [approval_requests Sql.insert_request].
    rewrite filter_app.
    replace (filter _ (approval_requests d)) with (@nil Requests.row)
      by (symmetry; now apply filter_nil_none).
    cbn. unfold Sql.between, Sql.is_pending. cbn. now rewrite !Z.eqb_refl. }
  rewrite Hsel. cbn [fetchone hd_error].
  assert (Hapt : Sql.select_apartments_of r (Sql.insert_request u r first d) = [])
    by (now apply apartments_of_none in Hlink).
  rewrite Hapt. cbn [hd_error].
  rewrite (insert_apartment_homeless u r _ Hapt). cbn [fst snd].
  split; [reflexivity|]. split; [reflexivity|].
  cbn. rewrite map_app. cbn [map].
  rewrite map_unchanged by (intros q Hq; now rewrite (Hnone q Hq)).
  unfold Sql.between, Sql.is_pending. cbn. now rewrite !Z.eqb_refl.
Qed.

Lemma claim_then_approve_witness :
  isdigit "10" = true /\ int "10" = Some 10 /\ is_valid_apartment 10 = true
  /\ sqlite_integer 3 = true
  /\ apartments db_later_neighbour
     = [Apartments.mk 1 10 5; Apartments.mk 2 10 2]
  /\ Sql.select_residents 10 db_later_neighbour = [2; 5]
  /\ snd (request_apartment_access db_later_neighbour 3 ["10"])
     = AccessRequested 3 2 10
  /\ snd (approve_request
            (fst (request_apartment_access db_later_neighbour 3 ["10"]))
            2 [str 3])
     = AccessGranted 3 10.
Proof.
  split; [reflexivity|]. split; [reflexivity|]. split; [reflexivity|].
  split; [reflexivity|]. split; [reflexivity|]. split; [reflexivity|].
  split; [reflexivity|].
  apply (proj1 (claim_then_approve db_later_neighbour 3 "10" 10 2 [5]
                  eq_refl eq_refl eq_refl eq_refl eq_refl
                  ltac:(apply apartments_of_none; reflexivity)
                  ltac:(apply pending_none; reflexivity))).
Defined.

(** Moving in and out again.  A user without a link claims a vacant
    apartment of one of the two houses and then sends /deleteapartment:
    the reply names that apartment and the links and requests are those
    from before the claim. *)
Theorem register_then_release :
  forall d r a u,
    isdigit a = true -> int a = Some u -> is_valid_apartment u = true ->
    ~ occupied u d -> ~ holds_link r d ->
    snd (delete_apartment (fst (request_apartment_access d r [a])) r)
    = LinkDeleted r u
    /\ apartments (fst (delete_apartment (fst (request_apartment_access d r [a])) r))
       = apartments d
    /\ approval_requests
         (fst (delete_apartment (fst (request_apartment_access d r [a])) r))
       = approval_requests d.
Proof.
  intros d r a u Hd Hint Hok Hfree Hlink.
  rewrite (request_on_vacant d r a u Hd Hint Hok Hfree). cbn [fst].
  apply apartments_of_none in Hlink. unfold Sql.select_apartments_of in Hlink.
  apply map_nil_inv in Hlink. apply (proj1 (index_scan_none _ _)) in Hlink.
  set (d1 := mkdb (apartments d ++ [Apartments.mk (Sql.next_apartment_id d) u r])
                  (admins d) (approval_requests d)
                  (Sql.next_apartment_id d) (approval_requests_seq d)).
  assert (Hmine : Sql.of_user r (Apartments.mk (Sql.next_apartment_id d) u r) = true)
    by (unfold Sql.of_user; cbn; apply Z.eqb_refl).
  assert (Hsel : Sql.select_apartments_of r d1 = [u]).
  { unfold Sql.select_apartments_of, d1. cbn [apartments].
    now rewrite (index_scan_one _ _ _ Hlink Hmine). }
  unfold delete_apartment. rewrite Hsel. cbn [fetchone hd_error fst snd].
  split; [reflexivity|]. split; [|reflexivity].
  unfold Sql.delete_user_links, d1. cbn [apartments set_apartments].
  rewrite filter_app. cbn [filter]. rewrite Hmine. cbn [negb]. rewrite app_nil_r.
  apply filter_all. intros l Hl.
  rewrite filter_nil_none in Hlink. now rewrite (Hlink l Hl).
Qed.

Lemma register_then_release_witness :
  isdigit "11" = true /\ int "11" = Some 11 /\ is_valid_apartment 11 = true
  /\ snd (delete_apartment (fst (request_apartment_access db_one_resident 5 ["11"])) 5)
     = LinkDeleted 5 11
  /\ apartments
       (fst (delete_apartment (fst (request_apartment_access db_one_resident 5 ["11"])) 5))
     = apartments db_one_resident.
Proof.
  split; [reflexivity|]. split; [reflexivity|]. split; [reflexivity|].
  pose proof (register_then_release db_one_resident 5 "11" 11
                eq_refl eq_refl eq_refl
                ltac:(apply residents_none; reflexivity)
                ltac:(apply apartments_of_none; reflexivity)) as H.
  split; [exact (proj1 H) | exact (proj1 (proj2 H))].
Defined.

(** An approval never gives a second home: whenever /approve answers that
    access is granted, the requester holds exactly one link afterwards,
    the one to the apartment granted, and held none before. *)
Theorem approval_gives_the_only_link :
  forall d approver args r u,
    snd (approve_request d approver args) = AccessGranted r u ->
    ~ holds_link r d
    /\ links_of_user r (fst (approve_request d approver args))
       = [Apartments.mk (Sql.next_apartment_id d) u r].
Proof.
  intros d approver args r u. unfold approve_request.
  destruct args as [|a rest]; [discriminate|].
  destruct (int a) as [r'|]; [|discriminate].
  destruct (sqlite_integer r'); cbn [negb]; [|discriminate].
  destruct (fetchone (Sql.select_pending r' approver d)) as [u'|]; [|discriminate].
  destruct (fetchone (Sql.select_apartments_of r' d)) eqn:E; [discriminate|].
  apply fetchone_none in E. rewrite (insert_apartment_homeless u' r' d E).
  cbn [snd fst]. intros H. injection H as -> ->.
  split; [now apply apartments_of_none|].
  unfold links_of_user. cbn.
  apply filter_app_last; [|unfold Sql.of_user; cbn; apply Z.eqb_refl].
  unfold Sql.select_apartments_of in E. apply map_nil_inv in E.
  now apply (proj1 (index_scan_none _ _)) in E.
Qed.

Lemma approval_gives_the_only_link_witness :
  snd (approve_request db_pending 1 ["2"]) = AccessGranted 2 10
  /\ ~ holds_link 2 db_pending
  /\ links_of_user 2 (fst (approve_request db_pending 1 ["2"]))
     = [Apartments.mk (Sql.next_apartment_id db_pending) 10 2].
Proof.
  split; [reflexivity|].
  apply (approval_gives_the_only_link db_pending 1 ["2"] 2 10). reflexivity.
Defined.

(* ------------------------------------------------------------------ *)
(** ** Messages of users without an apartment *)

Lemma classic_holds u d : holds_link u d \/ ~ holds_link u d.
Proof.
  destruct (Sql.select_apartments_of u d) as [|n ns] eqn:E.
  - right. now apply apartments_of_none.
  - left. unfold Sql.select_apartments_of in E.
    destruct (filter (Sql.of_user u) (Sql.index_scan (apartments d)))
      as [|x xs] eqn:F; [discriminate|].
    assert (Hx : In x (filter (Sql.of_user u) (Sql.index_scan (apartments d))))
      by (rewrite F; now left).
    apply filter_In in Hx as [Hin Hu].
    apply (proj1 (index_scan_In _ _)) in Hin.
    exists x. split; [exact Hin|]. now apply Z.eqb_eq.
Qed.

Lemma handle_message_deletes d u :
  handle_message d (Some u) = DeleteAndWarn u
  <-> is_admin_user d u = false /\ ~ holds_link u d.
Proof.
  unfold handle_message, is_admin_user. rewrite <- apartments_of_none.
  destruct (fetchone (Sql.select_admin u d)).
  - split; [discriminate | intros [H _]; discriminate].
  - destruct (Sql.select_apartments_of u d); cbn.
    + tauto.
    + split; [discriminate | intros [_ H]; discriminate].
Qed.

Lemma handle_message_keeps d u :
  handle_message d (Some u) = KeepMessage
  <-> is_admin_user d u = true \/ holds_link u d.
Proof.
  unfold handle_message, is_admin_user.
  destruct (fetchone (Sql.select_admin u d)); [tauto|].
  destruct (Sql.select_apartments_of u d) eqn:E; cbn.
  - apply apartments_of_none in E. split; [discriminate|].
    intros [H|H]; [discriminate | contradiction].
  - split; [|reflexivity]. intros _. right.
    destruct (classic_holds u d) as [H|H]; [exact H|].
    apply apartments_of_none in H. congruence.
Qed.

(** A text message is deleted, with a warning to its sender, exactly when
    the sender is no administrator and holds no link.  So a user who is no
    administrator and has no link stays muted after /setapartment unless the
    claim was linked at once: a claim that awaits approval, or was refused,
    changes nothing for the messages; and once /approve has granted the
    access the messages of the requester are kept. *)
Theorem muted_until_linked :
  forall d r,
    (handle_message d (Some r) = DeleteAndWarn r
     <-> is_admin_user d r = false /\ ~ holds_link r d)
    /\ handle_message d None = KeepMessage
    /\ (forall args,
           is_admin_user d r = false -> ~ holds_link r d ->
           handle_message (fst (request_apartment_access d r args)) (Some r)
           = match snd (request_apartment_access d r args) with
             | Linked _ _ => KeepMessage
             | _ => DeleteAndWarn r
             end)
    /\ (forall approver args u,
           snd (approve_request d approver args) = AccessGranted r u ->
           handle_message (fst (approve_request d approver args)) (Some r)
           = KeepMessage).
Proof.
  intros d r. split; [apply handle_message_deletes|]. split; [reflexivity|]. split.
  - intros args Hadm Hlink.
    assert (Hsame : forall d', admins d' = admins d -> apartments d' = apartments d ->
                               handle_message d' (Some r) = DeleteAndWarn r).
    { intros d' Ea Ep. apply handle_message_deletes. split.
      - rewrite is_admin_user_existsb in *. now rewrite Ea.
      - intros [l [Hin Hl]]. apply Hlink. exists l. now rewrite <- Ep. }
    unfold request_apartment_access.
    destruct args as [|a [|b rest]]; cbn [fst snd];
      try (apply Hsame; reflexivity).
    destruct (isdigit a); cbn [negb fst snd]; try (apply Hsame; reflexivity).
    destruct (int a) as [n|]; cbn [fst snd]; try (apply Hsame; reflexivity).
    destruct (is_valid_apartment n); cbn [negb fst snd];
      try (apply Hsame; reflexivity).
    destruct (Sql.select_residents n d) as [|x xs]; cbn [fst snd];
      try (apply Hsame; reflexivity).
    destruct (Sql.insert_apartment n r d) as [d'|] eqn:E; cbn [fst snd];
      try (apply Hsame; reflexivity).
    apply handle_message_keeps. right.
    unfold Sql.insert_apartment in E.
    destruct (existsb _ _); [discriminate|]. injection E as <-.
    exists (Apartments.mk (Sql.next_apartment_id d) n r).
    cbn. split; [|reflexivity]. apply in_or_app. right. now left.
  - intros approver args u H. apply handle_message_keeps. right.
    unfold approve_request in *.
    destruct args as [|a rest]; [discriminate|].
    destruct (int a) as [r'|]; [|discriminate].
    destruct (sqlite_integer r'); cbn [negb] in H; [|discriminate].
    destruct (fetchone (Sql.select_pending r' approver d)) as [u'|]; [|discriminate].
    destruct (fetchone (Sql.select_apartments_of r' d)); [discriminate|].
    destruct (Sql.insert_apartment u' r' d) as [d'|] eqn:E; [|discriminate].
    cbn [fst snd] in *. injection H as -> ->.
    unfold Sql.insert_apartment in E.
    destruct (existsb _ _); [discriminate|]. injection E as <-.
    exists (Apartments.mk (Sql.next_apartment_id d) u r). cbn.
    split; [|reflexivity]. apply in_or_app. right. now left.
Qed.

Lemma muted_until_linked_witness :
  handle_message db_one_resident (Some 2) = DeleteAndWarn 2
  /\ handle_message db_pending (Some 2) = DeleteAndWarn 2
  /\ handle_message db_two_residents (Some 2) = KeepMessage
  /\ handle_message db_one_resident (Some 1000) = KeepMessage
  /\ (handle_message db_pending (Some 2) = DeleteAndWarn 2
      <-> is_admin_user db_pending 2 = false /\ ~ holds_link 2 db_pending).
Proof.
  split; [reflexivity|]. split; [reflexivity|]. split; [reflexivity|].
  split; [reflexivity|].
  apply (proj1 (muted_until_linked db_pending 2)).
Defined.

(** /start answers in the chat of the house only.  There it asks for a
    registration exactly when the user holds no link, which for a user who
    is no administrator is exactly when the user's messages are deleted;
    otherwise it names the apartment of the first link found, the one
    /deleteapartment would name. *)
Theorem start_reply_cases :
  forall GROUP_ID d u chat,
    (chat <> GROUP_ID -> start GROUP_ID d u chat = OnlyInGroup)
    /\ (start GROUP_ID d u GROUP_ID = AskToRegister <-> ~ holds_link u d)
    /\ (is_admin_user d u = false ->
        (start GROUP_ID d u GROUP_ID = AskToRegister
         <-> handle_message d (Some u) = DeleteAndWarn u))
    /\ (forall n,
           start GROUP_ID d u GROUP_ID = RegisteredIn n
           <-> snd (delete_apartment d u) = LinkDeleted u n).
Proof.
  intros G d u chat. unfold start. rewrite Z.eqb_refl. cbn [negb].
  assert (Hask : match fetchone (Sql.select_apartments_of u d) with
                 | Some apartment => RegisteredIn apartment
                 | None => AskToRegister
                 end = AskToRegister <-> ~ holds_link u d).
  { rewrite <- apartments_of_none.
    destruct (Sql.select_apartments_of u d); cbn; split;
      first [reflexivity | discriminate]. }
  split; [|split; [exact Hask|split]].
  - intros H. apply Z.eqb_neq in H. now rewrite H.
  - intros Hadm. rewrite Hask, handle_message_deletes. tauto.
  - intros n. unfold delete_apartment.
    destruct (fetchone (Sql.select_apartments_of u d)); cbn [snd];
      split; intros H; first [discriminate H | injection H as ->; reflexivity].
Qed.

Lemma start_reply_cases_witness :
  start 77 db_crowded 3 77 = RegisteredIn 30
  /\ start 77 db_crowded 9 77 = AskToRegister
  /\ start 77 db_crowded 3 5 = OnlyInGroup
  /\ (start 77 db_crowded 9 77 = AskToRegister <-> ~ holds_link 9 db_crowded).
Proof.
  split; [reflexivity|]. split; [reflexivity|]. split; [reflexivity|].
  apply (proj1 (proj2 (start_reply_cases 77 db_crowded 9 77))).
Defined.

(* ------------------------------------------------------------------ *)
(** ** After the queue is cleared, after the reset *)

Lemma no_pending_rows_not_found d :
  (forall q, In q (approval_requests d) -> Sql.is_pending q = false) ->
  forall a s rest r,
    int s = Some r -> sqlite_integer r = true ->
    approve_request d a (s :: rest) = (d, RequestNotFound)
    /\ reject_request d a (s :: rest) = (d, RequestNotFound).
Proof.
  intros Hnone a s rest r Hint Hs.
  assert (E : Sql.select_pending r a d = []).
  { unfold Sql.select_pending.
    replace (filter _ (approval_requests d)) with (@nil Requests.row); [reflexivity|].
    symmetry. apply filter_nil_none. intros q Hq.
    now rewrite (Hnone q Hq), andb_false_r. }
  unfold approve_request, reject_request. now rewrite Hint, Hs, E.
Qed.

(** /clearrequests by an administrator leaves nothing to decide: whoever
    then sends /approve or /reject for whichever user, of an id SQLite
    can hold, is told that no request was found, and nothing changes.  The reply of /clearrequests
    says that there was nothing to clear exactly when no request was
    pending.  The inline button does to the database what the command
    does. *)
Theorem cleared_queue_leaves_nothing_to_decide :
  forall d actor,
    is_admin_user d actor = true ->
    (forall a s rest r,
        int s = Some r -> sqlite_integer r = true ->
        approve_request (fst (clear_approval_requests d actor)) a (s :: rest)
        = (fst (clear_approval_requests d actor), RequestNotFound)
        /\ reject_request (fst (clear_approval_requests d actor)) a (s :: rest)
           = (fst (clear_approval_requests d actor), RequestNotFound))
    /\ (snd (clear_approval_requests d actor) = NothingToClear
        <-> forall q, In q (approval_requests d) -> Requests.status q <> pending)
    /\ fst (handle_admin_callback d actor "admin_clear_requests")
       = fst (clear_approval_requests d actor).
Proof.
  intros d actor Hadm.
  assert (Hc : clear_approval_requests d actor
               = (fst (Sql.delete_pending d),
                  cleared_reply (snd (Sql.delete_pending d)))).
  { unfold clear_approval_requests, clear_pending_requests_from_db.
    rewrite Hadm. cbn [negb]. now destruct (Sql.delete_pending d). }
  rewrite Hc. cbn [fst snd]. split; [|split].
  - apply no_pending_rows_not_found. intros q Hq. cbn in Hq.
    apply filter_In_neg in Hq. tauto.
  - unfold cleared_reply, Sql.delete_pending. cbn [snd].
    destruct (filter Sql.is_pending (approval_requests d)) as [|q0 l] eqn:E.
    + split; [|reflexivity]. intros _ q Hq Hs.
      rewrite filter_nil_none in E. specialize (E q Hq).
      unfold Sql.is_pending in E. rewrite Hs in E. discriminate.
    + cbn [List.length]. rewrite Nat2Z.inj_succ.
      destruct (Z.eqb_spec (Z.succ (Z.of_nat (List.length l))) 0) as [H0|H0]; [lia|].
      split; [discriminate|]. intros H. exfalso.
      assert (Hq : In q0 (filter Sql.is_pending (approval_requests d)))
        by (rewrite E; now left).
      apply filter_In in Hq as [Hin Hp]. apply (H q0 Hin).
      now apply status_eqb_eq.
  - unfold handle_admin_callback, clear_pending_requests_from_db.
    rewrite Hadm. cbn. now destruct (Sql.delete_pending d).
Qed.

Lemma cleared_queue_leaves_nothing_to_decide_witness :
  is_admin_user db_crowded 7 = true /\ int "3" = Some 3
  /\ sqlite_integer 3 = true
  /\ snd (approve_request db_crowded 1 ["3"]) = AlreadyRegistered 30
  /\ snd (clear_approval_requests db_crowded 7) = RequestsCleared 1
  /\ approve_request (fst (clear_approval_requests db_crowded 7)) 1 ["3"]
     = (fst (clear_approval_requests db_crowded 7), RequestNotFound)
  /\ reject_request (fst (clear_approval_requests db_crowded 7)) 1 ["3"]
     = (fst (clear_approval_requests db_crowded 7), RequestNotFound).
Proof.
  split; [reflexivity|]. split; [reflexivity|]. split; [reflexivity|].
  split; [reflexivity|]. split; [reflexivity|].
  apply (proj1 (cleared_queue_leaves_nothing_to_decide db_crowded 7 eq_refl)
           1 "3" [] 3 eq_refl eq_refl).
Defined.

(** After a full reset that went through, the registration starts over:
    every claim for a number of the two houses is linked at once, /approve
    and /reject for a user of an id SQLite can hold find no request,
    /start asks every user to register, and the messages of every user
    who is no administrator are deleted. *)
Theorem after_reset_everyone_registers_again :
  forall MAIN GROUP_ID d args,
    snd (force_registration MAIN d MAIN args) = DatabaseCleared ->
    (forall r a u,
        isdigit a = true -> int a = Some u -> is_valid_apartment u = true ->
        snd (request_apartment_access
               (fst (force_registration MAIN d MAIN args)) r [a])
        = Linked r u)
    /\ (forall x s rest r,
           int s = Some r -> sqlite_integer r = true ->
           approve_request (fst (force_registration MAIN d MAIN args)) x (s :: rest)
           = (fst (force_registration MAIN d MAIN args), RequestNotFound)
           /\ reject_request (fst (force_registration MAIN d MAIN args)) x (s :: rest)
              = (fst (force_registration MAIN d MAIN args), RequestNotFound))
    /\ (forall u,
           start GROUP_ID (fst (force_registration MAIN d MAIN args)) u GROUP_ID
           = AskToRegister)
    /\ (forall u,
           is_admin_user d u = false ->
           handle_message (fst (force_registration MAIN d MAIN args)) (Some u)
           = DeleteAndWarn u).
Proof.
  intros MAIN G d args H.
  assert (E : fst (force_registration MAIN d MAIN args)
              = Sql.delete_all_requests (Sql.delete_all_apartments d)).
  { unfold force_registration in *. rewrite Z.eqb_refl in *. cbn [negb] in *.
    destruct args as [|a rest]; [discriminate|].
    destruct (String.eqb a FORCE_REGISTRATION_CODE); [reflexivity | discriminate]. }
  rewrite E. clear H E.
  set (d0 := Sql.delete_all_requests (Sql.delete_all_apartments d)).
  assert (Hfree : forall u, ~ holds_link u d0) by (intros u [l [[] _]]).
  split; [|split; [|split]].
  - intros r a u Hd Hint Hok.
    rewrite (request_on_vacant d0 r a u Hd Hint Hok); [reflexivity|].
    intros [l [[] _]].
  - apply no_pending_rows_not_found. intros q [].
  - intros u. unfold start. rewrite Z.eqb_refl. reflexivity.
  - intros u Hu. apply handle_message_deletes. split; [|apply Hfree].
    rewrite is_admin_user_existsb in *. exact Hu.
Qed.

Lemma after_reset_everyone_registers_again_witness :
  snd (force_registration 1000 db_crowded 1000 ["2512"]) = DatabaseCleared
  /\ snd (request_apartment_access db_crowded 5 ["10"]) = AccessRequested 5 1 10
  /\ snd (request_apartment_access
            (fst (force_registration 1000 db_crowded 1000 ["2512"])) 5 ["10"])
     = Linked 5 10
  /\ snd (approve_request db_crowded 1 ["3"]) = AlreadyRegistered 30
  /\ approve_request
       (fst (force_registration 1000 db_crowded 1000 ["2512"])) 1 ["3"]
     = (fst (force_registration 1000 db_crowded 1000 ["2512"]), RequestNotFound).
Proof.
  split; [reflexivity|]. split; [reflexivity|].
  pose proof (after_reset_everyone_registers_again
                1000 77 db_crowded ["2512"] eq_refl) as H.
  split; [exact (proj1 H 5 "10" 10 eq_refl eq_refl eq_refl)|].
  split; [reflexivity|].
  exact (proj1 (proj1 (proj2 H) 1 "3" [] 3 eq_refl eq_refl)).
Defined.

(* ------------------------------------------------------------------ *)
(** ** Occupancy figures: /apartmentstats *)

Lemma units_between_In lo hi n : In n (units_between lo hi) <-> lo <= n <= hi.
Proof.
  unfold units_between. rewrite in_map_iff. split.
  - intros [k [<- Hk]]. apply in_seq in Hk. lia.
  - intros H. exists (Z.to_nat (n - lo)). split; [lia|]. apply in_seq. lia.
Qed.

Lemma NoDup_map_injective {A B} (f : A -> B) (l : list A) :
  (forall x y, f x = f y -> x = y) -> NoDup l -> NoDup (map f l).
Proof.
  intros Hf. induction 1 as [|x l Hx Hl IH]; cbn; constructor; auto.
  intros H. apply in_map_iff in H as [y [Hy Hin]].
  apply Hf in Hy. now subst y.
Qed.

Lemma units_between_NoDup lo hi : NoDup (units_between lo hi).
Proof.
  unfold units_between. apply NoDup_map_injective; [|apply seq_NoDup].
  intros x y H. lia.
Qed.

Lemma units_between_length lo hi :
  lo <= hi + 1 -> Z.of_nat (List.length (units_between lo hi)) = hi - lo + 1.
Proof. intros H. unfold units_between. rewrite length_map, length_seq. lia. Qed.

Lemma occupiedb_In d n :
  occupiedb d n = true <-> In n (select_distinct_numbers d).
Proof.
  unfold occupiedb, select_distinct_numbers.
  rewrite nodup_In, existsb_exists, in_map_iff. unfold Sql.in_apartment.
  split; intros [l [H1 H2]]; exists l.
  - apply Z.eqb_eq in H2. auto.
  - split; [exact H2 | now apply Z.eqb_eq].
Qed.

Lemma same_elements_same_length {A} (l l' : list A) :
  NoDup l -> NoDup l' -> (forall x, In x l <-> In x l') ->
  List.length l = List.length l'.
Proof.
  intros Hl Hl' H. apply Nat.le_antisymm; apply NoDup_incl_length; auto;
    intros x Hx; now apply H.
Qed.

(** The units of a house that are counted as occupied are the units of
    the house that have a link. *)
Lemma count_between_occupied d lo hi :
  count_between lo hi (select_distinct_numbers d)
  = Z.of_nat (List.length (filter (occupiedb d) (units_between lo hi))).
Proof.
  unfold count_between. f_equal. apply same_elements_same_length.
  - apply NoDup_filter, NoDup_nodup.
  - apply NoDup_filter, units_between_NoDup.
  - intros n. rewrite !filter_In, units_between_In, occupiedb_In.
    rewrite andb_true_iff, !Z.leb_le. tauto.
Qed.

Lemma filter_length_le {A} (f : A -> bool) (l : list A) :
  (List.length (filter f l) <= List.length l)%nat.
Proof. rewrite (filter_length_split f l). lia. Qed.

Lemma count_between_bounds d lo hi :
  lo <= hi + 1 ->
  0 <= count_between lo hi (select_distinct_numbers d) <= hi - lo + 1.
Proof.
  intros H. rewrite count_between_occupied, <- (units_between_length lo hi H).
  pose proof (filter_length_le (occupiedb d) (units_between lo hi)). lia.
Qed.

(** The numbers outside the two houses are the rest of the count. *)
Lemma distinct_numbers_split l :
  Z.of_nat (List.length l)
  = count_between HOUSE1_START HOUSE1_END l
    + count_between HOUSE2_START HOUSE2_END l
    + Z.of_nat (List.length (filter (fun n => negb (is_valid_apartment n)) l)).
Proof.
  unfold count_between.
  induction l as [|n l IH]; [reflexivity|].
  cbn [filter List.length]. unfold is_valid_apartment at 1.
  unfold HOUSE1_START, HOUSE1_END, HOUSE2_START, HOUSE2_END in *.
  destruct (1 <=? n) eqn:E1, (n <=? 252) eqn:E2, (253 <=? n) eqn:E3,
           (n <=? 403) eqn:E4; cbn [andb orb negb List.length]; lia.
Qed.

Lemma some_eq {A} (x y : A) : Some x = Some y -> x = y.
Proof. congruence. Qed.

Lemma apartment_stats_facts :
  forall d actor,
    (apartment_stats d actor = None <-> is_admin_user d actor = false)
    /\ (forall s,
           apartment_stats d actor = Some s ->
           occupied_house1 s
           = Z.of_nat (List.length (filter (occupiedb d)
                                           (units_between HOUSE1_START HOUSE1_END)))
           /\ occupied_house2 s
              = Z.of_nat (List.length (filter (occupiedb d)
                                              (units_between HOUSE2_START HOUSE2_END)))
           /\ occupied_house1 s + free_house1 s = 252
           /\ occupied_house2 s + free_house2 s = 151
           /\ occupied_all s + free_all s = 403
           /\ 0 <= free_house1 s /\ 0 <= free_house2 s
           /\ other_occupied s
              = Z.of_nat (List.length
                            (filter (fun n => negb (is_valid_apartment n))
                                    (select_distinct_numbers d)))
           /\ (warns_other s = true
               <-> exists l, In l (apartments d)
                             /\ is_valid_apartment (Apartments.apartment_number l)
                                = false)).
Proof.
  intros d actor. unfold apartment_stats.
  destruct (is_admin_user d actor); cbn [negb].
  - split; [split; discriminate|]. intros s H. cbv zeta in H.
    apply some_eq in H. subst s.
    cbv beta iota delta [occupied_house1 occupied_house2 free_house1 free_house2
                         occupied_all free_all other_occupied warns_other].
    pose proof (count_between_bounds d HOUSE1_START HOUSE1_END) as B1.
    pose proof (count_between_bounds d HOUSE2_START HOUSE2_END) as B2.
    pose proof (distinct_numbers_split (select_distinct_numbers d)) as Hsplit.
    unfold HOUSE1_START, HOUSE1_END, HOUSE2_START, HOUSE2_END in B1, B2 |- *.
    unfold HOUSE1_START, HOUSE1_END, HOUSE2_START, HOUSE2_END in Hsplit.
    specialize (B1 ltac:(lia)). specialize (B2 ltac:(lia)).
    split; [apply (count_between_occupied d 1 252)|].
    split; [apply (count_between_occupied d 253 403)|].
    split; [lia|]. split; [lia|]. split; [lia|]. split; [lia|]. split; [lia|].
    split; [lia|].
    rewrite Z.ltb_lt.
    replace (Z.of_nat (List.length (select_distinct_numbers d))
             - (count_between 1 252 (select_distinct_numbers d)
                + count_between 253 403 (select_distinct_numbers d)))
      with (Z.of_nat (List.length (filter (fun n => negb (is_valid_apartment n))
                                          (select_distinct_numbers d)))) by lia.
    destruct (filter (fun n => negb (is_valid_apartment n))
                     (select_distinct_numbers d)) as [|n ns] eqn:E.
    + split; [cbn; lia|]. intros [l [Hin Hbad]]. exfalso.
      rewrite filter_nil_none in E.
      specialize (E (Apartments.apartment_number l)).
      rewrite Hbad in E. cbn in E. assert (true = false); [|discriminate].
      apply E. unfold select_distinct_numbers. apply nodup_In. now apply in_map.
    + split; [|cbn [List.length]; lia]. intros _.
      assert (Hn : In n (filter (fun n => negb (is_valid_apartment n))
                                (select_distinct_numbers d)))
        by (rewrite E; now left).
      apply filter_In in Hn as [Hin Hbad].
      unfold select_distinct_numbers in Hin. apply nodup_In in Hin.
      apply in_map_iff in Hin as [l [Hl Hin]]. exists l. split; [exact Hin|].
      rewrite Hl. now apply negb_true_iff.
  - split; [split; reflexivity|]. discriminate.
Qed.

(** /apartmentstats is answered to administrators only.  For each house
    the occupied count is the number of units of the house that have a
    link, however many links a unit has; it never exceeds the size of the
    house, so occupied and free add up to the size: 252, 151 and 403 in
    all.  [other_occupied] is the number of distinct numbers outside both
    houses, and the warning line is printed exactly when some link has
    such a number. *)
Theorem apartment_stats_figures :
  forall d actor,
    (apartment_stats d actor = None <-> is_admin_user d actor = false)
    /\ (forall s,
           apartment_stats d actor = Some s ->
           occupied_house1 s
           = Z.of_nat (List.length (filter (occupiedb d)
                                           (units_between HOUSE1_START HOUSE1_END)))
           /\ occupied_house2 s
              = Z.of_nat (List.length (filter (occupiedb d)
                                              (units_between HOUSE2_START HOUSE2_END)))
           /\ occupied_house1 s + free_house1 s = 252
           /\ occupied_house2 s + free_house2 s = 151
           /\ occupied_all s + free_all s = 403
           /\ 0 <= free_house1 s /\ 0 <= free_house2 s
           /\ other_occupied s
              = Z.of_nat (List.length
                            (filter (fun n => negb (is_valid_apartment n))
                                    (select_distinct_numbers d)))
           /\ (warns_other s = true
               <-> exists l, In l (apartments d)
                             /\ is_valid_apartment (Apartments.apartment_number l)
                                = false)).
Proof.
  intros d actor. split.
  - apply (apartment_stats_facts d actor).
  - intros s H. now apply (apartment_stats_facts d actor).
Qed.

Lemma apartment_stats_figures_witness :
  apartment_stats db_crowded 7
  = Some (mkstats 3 252 249 0 151 151 3 403 400 0 false)
  /\ apartment_stats db_crowded 3 = None
  /\ (apartment_stats db_crowded 3 = None <-> is_admin_user db_crowded 3 = false).
Proof.
  split; [reflexivity|]. split; [reflexivity|].
  apply (proj1 (apartment_stats_figures db_crowded 3)).
Defined.

(* ------------------------------------------------------------------ *)
(** ** Permissions *)

(** What is refused for want of rights is refused before anything is
    written.  /adminunlink, /admindelete, /clearrequests, /adminassign and
    the clearing button answer a user who is no administrator that the
    command is for administrators, and /forceregistration, /addadmin and
    /removeadmin answer anybody but the main administrator, administrators
    included, that it is for the main administrator; the database is the
    same afterwards. *)
Theorem refused_without_rights :
  forall MAIN d u args,
    (is_admin_user d u = false ->
       admin_unlink d u args = (d, AdminsOnly)
       /\ admin_delete_apartment d u args = (d, AdminsOnly)
       /\ clear_approval_requests d u = (d, AdminsOnly)
       /\ admin_assign d u args = (d, AdminsOnly)
       /\ handle_admin_callback d u "admin_clear_requests" = (d, AdminsOnly)
       /\ apartment_stats d u = None)
    /\ (u <> MAIN ->
        force_registration MAIN d u args = (d, MainAdminOnly)
        /\ add_admin MAIN d u args = (d, MainAdminOnly)
        /\ remove_admin MAIN d u args = (d, MainAdminOnly)).
Proof.
  intros MAIN d u args. split.
  - intros H. unfold admin_unlink, admin_delete_apartment, clear_approval_requests,
      admin_assign, handle_admin_callback, apartment_stats.
    rewrite H. cbn. repeat split.
  - intros H. apply Z.eqb_neq in H.
    unfold force_registration, add_admin, remove_admin. rewrite H. cbn.
    repeat split.
Qed.

Lemma refused_without_rights_witness :
  is_admin_user db_crowded 7 = true /\ 7 <> 1000
  /\ add_admin 1000 db_crowded 7 ["8"] = (db_crowded, MainAdminOnly)
  /\ admin_assign db_crowded 3 ["10"; "3"] = (db_crowded, AdminsOnly)
  /\ force_registration 1000 db_crowded 7 ["2512"] = (db_crowded, MainAdminOnly).
Proof.
  split; [reflexivity|]. split; [discriminate|].
  split; [|split].
  - apply (proj2 (refused_without_rights 1000 db_crowded 7 ["8"])). discriminate.
  - apply (proj1 (refused_without_rights 1000 db_crowded 3 ["10"; "3"])). reflexivity.
  - apply (proj2 (refused_without_rights 1000 db_crowded 7 ["2512"])). discriminate.
Defined.

(* ------------------------------------------------------------------ *)
(** ** Numbers outside the two houses *)

Lemma pending_unit_of_request r a d u :
  fetchone (Sql.select_pending r a d) = Some u ->
  exists q, In q (approval_requests d) /\ Requests.apartment_number q = u.
Proof.
  unfold Sql.select_pending, fetchone.
  destruct (filter _ (approval_requests d)) as [|q l] eqn:E; [discriminate|].
  cbn. intros H. injection H as <-. exists q. split; [|reflexivity].
  assert (Hq : In q (filter (fun q => Sql.between r a q && Sql.is_pending q)
                            (approval_requests d))) by (rewrite E; now left).
  now apply filter_In in Hq.
Qed.

Lemma numbers_valid_links d rows :
  numbers_valid d ->
  (forall l, In l rows -> In l (apartments d)) ->
  numbers_valid (set_apartments rows d).
Proof. intros [Hl Hq] H. split; cbn; auto. Qed.

Lemma numbers_valid_insert_apartment n u d d' :
  numbers_valid d -> is_valid_apartment n = true ->
  Sql.insert_apartment n u d = Some d' -> numbers_valid d'.
Proof.
  intros [Hl Hq] Hn. unfold Sql.insert_apartment.
  destruct (existsb _ _); [discriminate|]. intros H. injection H as <-.
  split; cbn; [|exact Hq]. intros l Hin. apply in_app_or in Hin as [Hin|[<-|[]]]; auto.
Qed.

Lemma numbers_valid_insert_request n r a d :
  numbers_valid d -> is_valid_apartment n = true ->
  numbers_valid (Sql.insert_request n r a d).
Proof.
  intros [Hl Hq] Hn. split; cbn; [exact Hl|].
  intros q Hin. apply in_app_or in Hin as [Hin|[<-|[]]]; auto.
Qed.

Lemma numbers_valid_requests d rows :
  numbers_valid d ->
  (forall q, In q rows ->
             exists q0, In q0 (approval_requests d)
                        /\ Requests.apartment_number q = Requests.apartment_number q0) ->
  numbers_valid (set_approval_requests rows d).
Proof.
  intros [Hl Hq] H. split; cbn; [exact Hl|].
  intros q Hin. destruct (H q Hin) as [q0 [Hin0 ->]]. auto.
Qed.

Lemma numbers_valid_update_approved r a d :
  numbers_valid d -> numbers_valid (Sql.update_approved r a d).
Proof.
  intros H. apply numbers_valid_requests; [exact H|].
  intros q Hin. apply in_map_iff in Hin as [q0 [<- Hin]]. exists q0.
  split; [exact Hin|]. now destruct (_ && _).
Qed.

Lemma numbers_valid_update_rejected r a d :
  numbers_valid d -> numbers_valid (Sql.update_rejected r a d).
Proof.
  intros H. apply numbers_valid_requests; [exact H|].
  intros q Hin. apply in_map_iff in Hin as [q0 [<- Hin]]. exists q0.
  split; [exact Hin|]. now destruct (Sql.between r a q0).
Qed.

Lemma numbers_valid_update_assigned actor n r d :
  numbers_valid d -> numbers_valid (Sql.update_assigned actor n r d).
Proof.
  intros H. apply numbers_valid_requests; [exact H|].
  intros q Hin. apply in_map_iff in Hin as [q0 [<- Hin]]. exists q0.
  split; [exact Hin|]. now destruct (_ && _).
Qed.

Lemma numbers_valid_delete_pending d :
  numbers_valid d -> numbers_valid (fst (Sql.delete_pending d)).
Proof.
  intros H. apply numbers_valid_requests; [exact H|].
  intros q Hin. apply filter_In in Hin as [Hin _]. eauto.
Qed.

Lemma numbers_valid_admins d rows :
  numbers_valid d -> numbers_valid (set_admins rows d).
Proof. intros [Hl Hq]. split; cbn; auto. Qed.

Lemma numbers_valid_filter d f :
  numbers_valid d -> numbers_valid (set_apartments (filter f (apartments d)) d).
Proof.
  intros H. apply numbers_valid_links; [exact H|].
  intros l Hl. now apply filter_In in Hl.
Qed.

Lemma dispatch_keeps_numbers_valid MAIN d c :
  numbers_valid d -> numbers_valid (fst (dispatch MAIN d c)).
Proof.
  intros H.
  destruct c as [u args|u args|u args|u args|u|u args|u args|u
                 |u args|u args|u args|u data| |]; cbn [dispatch].
  - unfold request_apartment_access.
    destruct args as [|a [|b rest]]; cbn [fst]; auto.
    destruct (isdigit a); cbn [negb fst]; auto.
    destruct (int a) as [n|]; cbn [fst]; auto.
    destruct (is_valid_apartment n) eqn:Hn; cbn [negb fst]; auto.
    destruct (Sql.select_residents n d) as [|x xs]; cbn [fst].
    + destruct (Sql.insert_apartment n u d) as [d'|] eqn:E; cbn [fst]; auto.
      eapply numbers_valid_insert_apartment; eauto.
    + now apply numbers_valid_insert_request.
  - unfold approve_request.
    destruct args as [|a rest]; cbn [fst]; auto.
    destruct (int a) as [r|]; cbn [fst]; auto.
    destruct (sqlite_integer r); cbn [negb fst]; auto.
    destruct (fetchone (Sql.select_pending r u d)) as [n|] eqn:Ep; cbn [fst]; auto.
    destruct (fetchone (Sql.select_apartments_of r d)); cbn [fst]; auto.
    destruct (Sql.insert_apartment n r d) as [d'|] eqn:E; cbn [fst]; auto.
    apply numbers_valid_update_approved.
    apply pending_unit_of_request in Ep as [q [Hq Hn]].
    eapply numbers_valid_insert_apartment; [exact H| |exact E].
    rewrite <- Hn. now apply H.
  - unfold reject_request.
    destruct args as [|a rest]; cbn [fst]; auto.
    destruct (int a) as [r|]; cbn [fst]; auto.
    destruct (sqlite_integer r); cbn [negb fst]; auto.
    destruct (fetchone _); cbn [fst]; auto.
    now apply numbers_valid_update_rejected.
  - unfold force_registration. handler_cases; cbn [fst]; auto.
    split; cbn; intros ? [].
  - unfold delete_apartment. destruct (fetchone _); cbn [fst]; auto.
    now apply numbers_valid_filter.
  - unfold admin_unlink. handler_cases; cbn [fst]; auto;
      now apply numbers_valid_filter.
  - unfold admin_delete_apartment. handler_cases; cbn [fst]; auto;
      now apply numbers_valid_filter.
  - unfold clear_approval_requests, clear_pending_requests_from_db.
    destruct (is_admin_user d u); cbn [negb fst]; auto.
    pose proof (numbers_valid_delete_pending d H) as H'.
    now destruct (Sql.delete_pending d).
  - unfold admin_assign.
    destruct (is_admin_user d u); cbn [negb fst]; auto.
    destruct args as [|a0 [|a1 rest]]; cbn [fst]; auto.
    destruct (int a0) as [n|]; cbn [fst]; auto.
    destruct (int a1) as [x|]; cbn [fst]; auto.
    destruct (is_valid_apartment n) eqn:Hn; cbn [negb fst]; auto.
    destruct (sqlite_integer x); cbn [negb fst]; auto.
    destruct (Sql.insert_apartment n x _) as [d'|] eqn:E; cbn [fst]; auto.
    apply numbers_valid_update_assigned.
    eapply numbers_valid_insert_apartment; [| exact Hn | exact E].
    unfold Sql.delete_user_links. cbn [apartments Sql.delete_apartment_number set_apartments].
    apply (numbers_valid_links d); [exact H|].
    intros l Hl. apply filter_In in Hl as [Hl _]. now apply filter_In in Hl.
  - unfold add_admin, Sql.insert_or_ignore_admin.
    handler_cases; cbn [fst]; auto; now apply numbers_valid_admins.
  - unfold remove_admin. handler_cases; cbn [fst]; auto;
      now apply numbers_valid_admins.
  - unfold handle_admin_callback, clear_pending_requests_from_db.
    destruct (String.eqb data ""); cbn [fst]; auto.
    destruct (String.eqb data "admin_clear_requests"); cbn [fst]; auto.
    destruct (is_admin_user d u); cbn [negb fst]; auto.
    pose proof (numbers_valid_delete_pending d H) as H'.
    now destruct (Sql.delete_pending d).
  - unfold create_db, Sql.insert_or_ignore_admin.
    destruct (existsb _ _); cbn [fst]; auto; now apply numbers_valid_admins.
  - exact H.
Qed.

(** The bot itself never stores a number outside the two houses: if every
    link and every request of a database is for a number of one of the two
    houses, the same holds after every list of updates.  So in a database
    the bot has filled from nothing, /apartmentstats counts no number
    outside the houses and never prints its warning line. *)
Theorem numbers_stay_valid :
  forall MAIN cs,
    (forall d, numbers_valid d -> numbers_valid (run MAIN d cs))
    /\ numbers_valid (run MAIN empty_db cs)
    /\ (forall actor s,
           apartment_stats (run MAIN empty_db cs) actor = Some s ->
           other_occupied s = 0 /\ warns_other s = false).
Proof.
  intros MAIN cs.
  assert (Hrun : forall d, numbers_valid d -> numbers_valid (run MAIN d cs)).
  { unfold run. induction cs as [|c cs IH]; intros d H; cbn [fold_left]; auto.
    apply IH. now apply dispatch_keeps_numbers_valid. }
  assert (H0 : numbers_valid (run MAIN empty_db cs))
    by (apply Hrun; split; intros ? []).
  split; [exact Hrun|]. split; [exact H0|].
  intros actor s Hs.
  destruct (apartment_stats_facts (run MAIN empty_db cs) actor) as [_ Hf].
  destruct (Hf s Hs) as (_ & _ & _ & _ & _ & _ & _ & Hother & Hwarn).
  assert (Hno : warns_other s = false).
  { apply not_true_iff_false. intros Hw. apply Hwarn in Hw as [l [Hin Hbad]].
    destruct H0 as [Hl _]. rewrite (Hl l Hin) in Hbad. discriminate. }
  split; [|exact Hno].
  rewrite Hother.
  replace (filter _ _) with (@nil Z); [reflexivity|].
  symmetry. apply filter_nil_none. intros n Hn.
  unfold select_distinct_numbers in Hn. apply nodup_In in Hn.
  apply in_map_iff in Hn as [l [<- Hin]].
  destruct H0 as [Hl _]. now rewrite (Hl l Hin).
Qed.

Lemma numbers_stay_valid_witness :
  numbers_valid db_crowded
  /\ numbers_valid
       (run 1000 db_crowded [adminassign 7 ["403"; "9"]; adminassign 7 ["404"; "9"]]).
Proof.
  assert (H : numbers_valid db_crowded).
  { apply (proj1 (proj2 (numbers_stay_valid 1000
        [restart; setapartment 1 ["10"]; setapartment 2 ["10"]; approve 1 ["2"];
         setapartment 3 ["30"]; setapartment 3 ["31"]; setapartment 3 ["10"];
         addadmin 1000 ["7"]]))). }
  split; [exact H|].
  apply (proj1 (numbers_stay_valid 1000
                  [adminassign 7 ["403"; "9"]; adminassign 7 ["404"; "9"]])).
  exact H.
Defined.
